(** * MiniMax Coding Plan quota adapter: model and properties

    Shallow embedding of [src/plugin/lib/minimax.ts] (with the constants of
    [src/plugin/lib/types.ts] it uses).

    Conventions of the embedding.
    - A JavaScript [number] that comes out of a JSON body is an exact rational
      ([Q]); NaN and the infinities are not values of a JSON document, and
      rounding of the binary representation is not modelled.
    - A field the source guards with [??], [== null], [?.] or [||] is an
      [option]; the other fields are taken at their declared type.
    - The collaborators imported from [./i18n] and [./utils], and the host
      functions ([readFile], [JSON.parse], [homedir], [join], [Date.now]),
      are interfaces: records of functions the adapter is parameterised by.
      A host function that can throw ([homedir], [readFile], [JSON.parse],
      the transport) gives an [outcome].
    - [async] code runs in a small monad with an event log and exceptions;
      [try]/[catch] is [try_catch]. *)

From Stdlib Require Import QArith Qround Qminmax ZArith String Ascii List Bool Lia.
Import ListNotations.

Local Open Scope string_scope.

(** ** JavaScript values and operators used by the adapter *)

Definition number := Q.

(** [a ?? b] *)
Definition nullish {A : Type} (a : option A) (b : A) : A :=
  match a with
  | Some v => v
  | None => b
  end.

Notation "a ?? b" := (nullish a b) (at level 72, right associativity).

(** [a == null] *)
Definition is_null {A : Type} (a : option A) : bool :=
  match a with
  | Some _ => false
  | None => true
  end.

(** Truthiness of a string and of a number. *)
Definition truthy_string (s : string) : bool :=
  match s with
  | EmptyString => false
  | String _ _ => true
  end.

Definition truthy_number (n : number) : bool := negb (Qeq_bool n 0).

(** [a || b] on an optional string. *)
Definition or_else (a : option string) (b : string) : string :=
  match a with
  | Some s => if truthy_string s then s else b
  | None => b
  end.

(** [x > y] and [x >= y] on numbers. *)
Definition gt (x y : number) : bool := negb (Qle_bool x y).
Definition ge (x y : number) : bool := Qle_bool y x.

(** [Math.max(0, Math.floor(x))] *)
Definition max0_floor (x : number) : Z := Z.max 0 (Qfloor x).

(** [lines.join("\n")] *)
Definition newline : string := String (ascii_of_nat 10) EmptyString.
Definition join_lines (lines : list string) : string := String.concat newline lines.

(** [s.includes(sub)] *)
Fixpoint includes (sub s : string) : bool :=
  if String.prefix sub s then true
  else match s with
       | EmptyString => false
       | String _ s' => includes sub s'
       end.

(** ** types.ts *)

Record QueryResult := {
  success : bool;
  output : option string;
  error : option string
}.

Definition HIGH_USAGE_THRESHOLD : number := 80.
Definition REQUEST_TIMEOUT_MS : number := 10000.

(** ** The response envelope of [/coding_plan/remains] *)

Record BaseResp := {
  status_code : number;
  status_msg : option string
}.

Record RemainsData := {
  plan_name : option string;
  total_prompts : option number;
  used_prompts : option number;
  remaining_prompts : option number;
  next_reset_time : option number;
  usage_percentage : option number
}.

Record MiniMaxRemainsResponse := {
  base_resp : BaseResp;
  data : option RemainsData
}.

Definition MINIMAX_QUOTA_URL : string :=
  "https://platform.minimaxi.io/v1/api/openplatform/coding_plan/remains".

Record MiniMaxSessionConfig := {
  session : option string
}.

(** ** Collaborators *)

(** The string table [t] of [./i18n]. *)
Module I18n.
Record Table := {
  account : string;
  noQuotaData : string;
  minimaxPromptLimit : string;
  remaining : number -> string;
  used : string;
  resetIn : string -> string;
  limitReached : string;
  minimaxApiError : number -> string -> string;
  minimaxConfigRequired : string
}.
End I18n.

(** The pure helpers of [./utils]. *)
Module Utils.
Record Helpers := {
  formatDuration : number -> string;
  createProgressBar : number -> string;
  calcRemainPercent : number -> number;
  maskString : string -> number -> string
}.
End Utils.

(** Modelled from the spec: [calcRemainPercent] of [./utils], which is not
    among the sources.  The spec gives the remaining percentage as
    [100 - percentage], a number of the range 0-100, "clamped to [0, 100]". *)
Definition calcRemainPercent_spec (usedPercent : number) : number :=
  Qmax 0 (Qmin 100 (100 - usedPercent)).

Definition clamps (U : Utils.Helpers) : Prop :=
  forall p, Utils.calcRemainPercent U p = calcRemainPercent_spec p.

(** ** formatMiniMaxUsage *)

(** What the source pushes onto [lines], one constructor per [lines.push];
    [render] gives the string pushed. *)
Inductive Line :=
| LHeader (session planLabel : string)
| LBlank
| LNoQuotaData
| LPromptLimit
| LBar (remainPercent : number)
| LUsed (used total : number)
| LResetIn (resetSeconds : Z)
| LLimitReached.

(** [d?.plan_name ? `Coding Plan - ${d.plan_name}` : "Coding Plan"] *)
Definition planLabel (d : option RemainsData) : string :=
  match d with
  | Some d' =>
      match plan_name d' with
      | Some p => if truthy_string p then "Coding Plan - " ++ p else "Coding Plan"
      | None => "Coding Plan"
      end
  | None => "Coding Plan"
  end.

(** [d.total_prompts == null && d.remaining_prompts == null] *)
Definition lacks_key_fields (d : RemainsData) : bool :=
  is_null (total_prompts d) && is_null (remaining_prompts d).

(** The locals [total], [used], [remaining], [usagePercent]. *)
Definition total (d : RemainsData) : number := total_prompts d ?? 0.

Definition used (d : RemainsData) : number :=
  used_prompts d ?? (total d - (remaining_prompts d ?? total d)).

Definition remaining (d : RemainsData) : number :=
  remaining_prompts d ?? (total d - used d).

Definition usagePercent (d : RemainsData) : number :=
  usage_percentage d ?? (if gt (total d) 0 then used d / total d * 100 else 0).

(** [Math.max(0, Math.floor((d.next_reset_time - Date.now()) / 1000))] *)
Definition resetSeconds (next_reset : number) (now : Z) : Z :=
  max0_floor ((next_reset - inject_Z now) / 1000).

Definition reset_lines (d : RemainsData) (now : Z) : list Line :=
  match next_reset_time d with
  | Some r => if truthy_number r then [LResetIn (resetSeconds r now)] else []
  | None => []
  end.

Definition warning_lines (d : RemainsData) : list Line :=
  if ge (usagePercent d) HIGH_USAGE_THRESHOLD then [LBlank; LLimitReached] else [].

Section Formatter.

Variable t : I18n.Table.
Variable U : Utils.Helpers.
(** [String(n)] inside a template literal. *)
Variable Number_toString : number -> string.

Definition report (now : Z) (resp : MiniMaxRemainsResponse) (session : string)
  : list Line :=
  let d := data resp in
  let header := [LHeader session (planLabel d); LBlank] in
  match d with
  | None => header ++ [LNoQuotaData]
  | Some d =>
      if lacks_key_fields d then header ++ [LNoQuotaData]
      else
        let remainPercent := Utils.calcRemainPercent U (usagePercent d) in
        header
          ++ [LPromptLimit; LBar remainPercent; LUsed (used d) (total d)]
          ++ reset_lines d now
          ++ warning_lines d
  end.

Definition render (l : Line) : string :=
  match l with
  | LHeader session planLabel =>
      I18n.account t ++ "        " ++ Utils.maskString U session 8
        ++ " (" ++ planLabel ++ ")"
  | LBlank => EmptyString
  | LNoQuotaData => I18n.noQuotaData t
  | LPromptLimit => I18n.minimaxPromptLimit t
  | LBar remainPercent =>
      Utils.createProgressBar U remainPercent ++ " "
        ++ I18n.remaining t remainPercent
  | LUsed used total =>
      I18n.used t ++ ": " ++ Number_toString used ++ " / "
        ++ Number_toString total ++ " prompts"
  | LResetIn resetSeconds =>
      I18n.resetIn t (Utils.formatDuration U (inject_Z resetSeconds))
  | LLimitReached => I18n.limitReached t
  end.

Definition formatMiniMaxUsage (now : Z) (resp : MiniMaxRemainsResponse)
  (session : string) : string :=
  join_lines (map render (report now resp session)).

End Formatter.

(** ** Effects: exceptions, the event log, the host *)

(** A thrown value: an [Error] with its [message], or any other value with
    what [String(err)] gives for it. *)
Inductive thrown :=
| ErrorObj (message : string)
| NonError (asString : string).

Inductive outcome (A : Type) :=
| Returns (a : A)
| Throws (e : thrown).
Arguments Returns {A} a.
Arguments Throws {A} e.

Record Request := {
  req_url : string;
  req_method : string;
  req_headers : list (string * string)
}.

Record Response := {
  ok : bool;
  status : number;
  text : outcome string;
  json : outcome MiniMaxRemainsResponse
}.

Inductive event :=
| EvReadFile (path : string)
| EvFetch (req : Request).

(** The host the adapter runs on: file system, JSON parser, network, clock. *)
Record Host := {
  homedir : outcome string;
  join : string -> string -> string;
  readFile : string -> outcome string;
  JSON_parse : string -> outcome MiniMaxSessionConfig;
  fetchWithTimeout : Request -> outcome Response;
  Date_now : Z;
  Number_toString : number -> string
}.

(** An [async] computation: it extends the log and returns or throws. *)
Definition M (A : Type) : Type := list event -> outcome A * list event.

Definition ret {A} (a : A) : M A := fun log => (Returns a, log).
Definition throw {A} (e : thrown) : M A := fun log => (Throws e, log).
Definition bind {A B} (m : M A) (k : A -> M B) : M B :=
  fun log =>
    match m log with
    | (Returns a, log') => k a log'
    | (Throws e, log') => (Throws e, log')
    end.
Definition try_catch {A} (m : M A) (handler : thrown -> M A) : M A :=
  fun log =>
    match m log with
    | (Returns a, log') => (Returns a, log')
    | (Throws e, log') => handler e log'
    end.
Definition emit (ev : event) : M unit := fun log => (Returns tt, (log ++ [ev])%list).
Definition settle {A} (o : outcome A) : M A := fun log => (o, log).

Notation "x <- m ;; k" := (bind m (fun x => k))
  (at level 61, m at next level, right associativity).
Notation "m ;;; k" := (bind m (fun _ => k))
  (at level 61, right associativity).

Definition fetch_calls (log : list event) : nat :=
  length (filter (fun ev => match ev with EvFetch _ => true | _ => false end) log).

Section Adapter.

Variable t : I18n.Table.
Variable U : Utils.Helpers.
Variable host : Host.
Variable MiniMaxAuthData : Type.

Definition do_readFile (path : string) : M string :=
  emit (EvReadFile path) ;;; settle (readFile host path).

Definition do_fetchWithTimeout (req : Request) : M Response :=
  emit (EvFetch req) ;;; settle (fetchWithTimeout host req).

(** [config.session || null] *)
Definition session_or_null (config : MiniMaxSessionConfig) : option string :=
  match session config with
  | Some s => if truthy_string s then Some s else None
  | None => None
  end.

(** [homedir()] is called before the [try]: what it throws is not caught. *)
Definition loadMiniMaxSession : M (option string) :=
  dir <- settle (homedir host) ;;
  let configPath := join host dir ".config/opencode/minimax-session.json" in
  try_catch
    (content <- do_readFile configPath ;;
     config <- settle (JSON_parse host content) ;;
     ret (session_or_null config))
    (fun _ => ret None).

(** The directory [homedir()] returns.  When [homedir()] throws there is
    none, no path is built and no file is read; the empty string stands in. *)
Definition home : string :=
  match homedir host with
  | Returns dir => dir
  | Throws _ => EmptyString
  end.

(** The path of the credential file, for a [homedir()] that returns. *)
Definition configPath : string :=
  join host home ".config/opencode/minimax-session.json".

Definition quota_request (session : string) : Request :=
  {| req_url := MINIMAX_QUOTA_URL;
     req_method := "GET";
     req_headers :=
       [("Cookie", "HERTZ-SESSION=" ++ session);
        ("Content-Type", "application/json");
        ("User-Agent", "OpenCode-Status-Plugin/1.0")] |}.

Definition fetchMiniMaxUsage (session : string) : M MiniMaxRemainsResponse :=
  response <- do_fetchWithTimeout (quota_request session) ;;
  if negb (ok response) then
    errorText <- settle (text response) ;;
    throw (ErrorObj (I18n.minimaxApiError t (status response) errorText))
  else
    data <- settle (json response) ;;
    if negb (Qeq_bool (status_code (base_resp data)) 0) then
      throw (ErrorObj
               (I18n.minimaxApiError t
                  (status_code (base_resp data))
                  (or_else (status_msg (base_resp data)) "Unknown error")))
    else ret data.

(** [!session] *)
Definition falsy_session (session : option string) : bool :=
  match session with
  | Some s => negb (truthy_string s)
  | None => true
  end.

(** [err instanceof Error ? err.message : String(err)] *)
Definition error_text (err : thrown) : string :=
  match err with
  | ErrorObj message => message
  | NonError asString => asString
  end.

Definition queryMiniMaxUsage (_authData : option MiniMaxAuthData)
  : M (option QueryResult) :=
  session <- loadMiniMaxSession ;;
  if falsy_session session then
    ret (Some {| success := false;
                 output := None;
                 error := Some (I18n.minimaxConfigRequired t) |})
  else
    (* past the guard [session] is a non-empty string *)
  let session := session ?? EmptyString in
    try_catch
      (usage <- fetchMiniMaxUsage session ;;
       ret (Some {| success := true;
                    output := Some (formatMiniMaxUsage t U (Number_toString host)
                                      (Date_now host) usage session);
                    error := None |}))
      (fun err =>
         ret (Some {| success := false;
                      output := None;
                      error := Some (error_text err) |})).

End Adapter.

(** ** A sample environment

    An English string table, simple helpers and hosts, used to run the model
    on concrete inputs. *)
Module Sample.

Definition t : I18n.Table :=
  {| I18n.account := "Account:";
     I18n.noQuotaData := "No quota data available";
     I18n.minimaxPromptLimit := "Prompt limit (5h window)";
     I18n.remaining := fun _ => "remaining";
     I18n.used := "Used";
     I18n.resetIn := fun d => "Resets in: " ++ d;
     I18n.limitReached := "Limit almost reached!";
     I18n.minimaxApiError := fun _ text => "MiniMax API request failed: " ++ text;
     I18n.minimaxConfigRequired := "MiniMax session cookie required" |}.

Definition U : Utils.Helpers :=
  {| Utils.formatDuration := fun _ => "soon";
     Utils.createProgressBar := fun _ => "[##########]";
     Utils.calcRemainPercent := calcRemainPercent_spec;
     Utils.maskString := fun s _ => "****" |}.

Definition show_number (n : number) : string :=
  if Qeq_bool n 0 then "0" else if Qle_bool 0 n then "n" else "-n".

Definition no_data : RemainsData :=
  {| plan_name := None; total_prompts := None; used_prompts := None;
     remaining_prompts := None; next_reset_time := None;
     usage_percentage := None |}.

Definition envelope (d : option RemainsData) : MiniMaxRemainsResponse :=
  {| base_resp := {| status_code := 0; status_msg := Some "success" |};
     data := d |}.

(** Only [remaining_prompts] is present. *)
Definition remaining_only : RemainsData :=
  {| plan_name := None; total_prompts := None; used_prompts := None;
     remaining_prompts := Some 5; next_reset_time := None;
     usage_percentage := None |}.

(** Only [usage_percentage] is present. *)
Definition percentage_only : RemainsData :=
  {| plan_name := None; total_prompts := None; used_prompts := None;
     remaining_prompts := None; next_reset_time := None;
     usage_percentage := Some 50 |}.

(** Counts say 10 of 100 are used, the explicit percentage says 50. *)
Definition disagreeing : RemainsData :=
  {| plan_name := Some "Plus"; total_prompts := Some 100;
     used_prompts := Some 10; remaining_prompts := Some 90;
     next_reset_time := None; usage_percentage := Some 50 |}.

(** The scenario of the spec: 85 of 100 used, reset one hour ahead of a
    clock that reads 1000000. *)
Definition busy : RemainsData :=
  {| plan_name := Some "Max"; total_prompts := Some 100;
     used_prompts := Some 85; remaining_prompts := None;
     next_reset_time := Some 4600000; usage_percentage := None |}.

(** A reset time that is already past when the clock reads 1000000. *)
Definition stale : RemainsData :=
  {| plan_name := None; total_prompts := Some 100;
     used_prompts := Some 20; remaining_prompts := Some 80;
     next_reset_time := Some 400000; usage_percentage := None |}.

Definition host_with (file : outcome string)
  (parsed : outcome MiniMaxSessionConfig) (net : outcome Response) : Host :=
  {| homedir := Returns "/home/dev";
     join := fun dir file => dir ++ "/" ++ file;
     readFile := fun _ => file;
     JSON_parse := fun _ => parsed;
     fetchWithTimeout := fun _ => net;
     Date_now := 1000000;
     Number_toString := show_number |}.

Definition offline : outcome Response := Throws (ErrorObj "fetch failed").

Definition found : outcome MiniMaxSessionConfig :=
  Returns {| session := Some "MTc3MTA2NDA0Nnx" |}.

Definition answer (body : outcome MiniMaxRemainsResponse) : outcome Response :=
  Returns {| ok := true; status := 200; text := Returns "{...}"; json := body |}.

(** The credential file does not exist. *)
Definition host_missing : Host :=
  host_with (Throws (ErrorObj "ENOENT: no such file or directory"))
    found offline.

(** The credential file is not JSON. *)
Definition host_malformed : Host :=
  host_with (Returns "{session:")
    (Throws (ErrorObj "Unexpected end of JSON input")) offline.

(** The credential file holds an empty session. *)
Definition host_empty_session : Host :=
  host_with (Returns "{session:empty}")
    (Returns {| session := Some EmptyString |}) offline.

(** The provider wraps an error in a 200 answer. *)
Definition host_invalid_session : Host :=
  host_with (Returns "{session:MTc3MTA2NDA0Nnx}") found
    (answer (Returns {| base_resp := {| status_code := 1004;
                                        status_msg := Some "invalid session" |};
                        data := None |})).

(** The provider answers 200 with a body that is not JSON. *)
Definition host_unparsable : Host :=
  host_with (Returns "{session:MTc3MTA2NDA0Nnx}") found
    (answer (Throws (ErrorObj "Unexpected token < in JSON at position 0"))).

(** The provider answers with the busy payload. *)
Definition host_busy : Host :=
  host_with (Returns "{session:MTc3MTA2NDA0Nnx}") found
    (answer (Returns (envelope (Some busy)))).

(** A zero total with a positive used count. *)
Definition zero_total : RemainsData :=
  {| plan_name := None; total_prompts := Some 0; used_prompts := Some 50;
     remaining_prompts := None; next_reset_time := None;
     usage_percentage := None |}.

(** Total and remaining, no used count. *)
Definition total_and_remaining : RemainsData :=
  {| plan_name := Some EmptyString; total_prompts := Some 100;
     used_prompts := None; remaining_prompts := Some 30;
     next_reset_time := Some 0; usage_percentage := None |}.

(** Counts say 10 of 100 are used, the explicit percentage says 90. *)
Definition overridden : RemainsData :=
  {| plan_name := Some "Plus"; total_prompts := Some 100;
     used_prompts := Some 10; remaining_prompts := Some 90;
     next_reset_time := None; usage_percentage := Some 90 |}.

(** [homedir()] throws: no home directory can be found for the user. *)
Definition host_homeless : Host :=
  {| homedir := Throws (ErrorObj "ENOENT: no such file or directory, uv_os_homedir");
     join := fun dir file => dir ++ "/" ++ file;
     readFile := fun _ => Returns "{session:MTc3MTA2NDA0Nnx}";
     JSON_parse := fun _ => found;
     fetchWithTimeout := fun _ => answer (Returns (envelope (Some busy)));
     Date_now := 1000000;
     Number_toString := show_number |}.

(** The transport throws an [Error] whose message is empty. *)
Definition host_silent : Host :=
  host_with (Returns "{session:MTc3MTA2NDA0Nnx}") found
    (Throws (ErrorObj EmptyString)).

(** The provider reports a code and no message. *)
Definition host_no_message : Host :=
  host_with (Returns "{session:MTc3MTA2NDA0Nnx}") found
    (answer (Returns {| base_resp := {| status_code := 1004;
                                        status_msg := None |};
                        data := None |})).

(** The provider answers with an envelope that has no payload. *)
Definition host_unmetered : Host :=
  host_with (Returns "{session:MTc3MTA2NDA0Nnx}") found
    (answer (Returns (envelope None))).

End Sample.

(** ** Vocabulary of the properties *)

(** Counts from which the spec derives a percentage: total with used
    (rule 2) or total with remaining (rule 3). *)
Definition derivable_counts (d : RemainsData) : bool :=
  negb (is_null (total_prompts d))
  && (negb (is_null (used_prompts d)) || negb (is_null (remaining_prompts d))).

(** An envelope with neither an explicit percentage nor such counts. *)
Definition lacks_percentage_and_counts (resp : MiniMaxRemainsResponse) : Prop :=
  match data resp with
  | None => True
  | Some d => usage_percentage d = None /\ derivable_counts d = false
  end.

(** The gate of the source: no payload, or one without both key fields. *)
Definition no_quota_data (resp : MiniMaxRemainsResponse) : Prop :=
  match data resp with
  | None => True
  | Some d => total_prompts d = None /\ remaining_prompts d = None
  end.

(** The result contract of the spec, with its two populated shapes. *)
Definition populated (field : option string) : Prop :=
  exists s, field = Some s /\ s <> EmptyString.

Definition failure (message : string) : QueryResult :=
  {| success := false; output := None; error := Some message |}.

(** The string table has text for the two messages of the adapter. *)
Definition messages_nonempty (t : I18n.Table) : Prop :=
  I18n.minimaxConfigRequired t <> EmptyString
  /\ forall code text, I18n.minimaxApiError t code text <> EmptyString.

(** The error template shows the text it is given. *)
Definition template_shows_text (t : I18n.Table) : Prop :=
  forall code text, includes text (I18n.minimaxApiError t code text) = true.

(** Every exception the host raises (from the transport call, from reading
    the body, from parsing it) has a text. *)
Definition faults_described (host : Host) : Prop :=
  (forall req e, fetchWithTimeout host req = Throws e -> error_text e <> EmptyString)
  /\ (forall req response e,
        fetchWithTimeout host req = Returns response ->
        text response = Throws e \/ json response = Throws e ->
        error_text e <> EmptyString).

(** The credential file is missing or unreadable ([readFile] throws), or its
    content is not JSON ([JSON.parse] throws). *)
Definition credential_unreadable (host : Host) : Prop :=
  (exists dir, homedir host = Returns dir)
  /\ ((exists e, readFile host (configPath host) = Throws e)
      \/ (exists content e,
            readFile host (configPath host) = Returns content
            /\ JSON_parse host content = Throws e)).

(** The credential file holds the session [s]. *)
Definition credential_holds (host : Host) (s : string) : Prop :=
  (exists dir, homedir host = Returns dir)
  /\ exists content config,
       readFile host (configPath host) = Returns content
       /\ JSON_parse host content = Returns config
       /\ session config = Some s
       /\ s <> EmptyString.

Definition raises {A : Type} (m : M A) (log : list event) : Prop :=
  exists e log', m log = (Throws e, log').

(** The two failures C9 names: a non-success HTTP status, or an envelope
    whose [base_resp.status_code] is not 0. *)
Definition api_failure (host : Host) (s : string) : Prop :=
  exists response,
    fetchWithTimeout host (quota_request s) = Returns response
    /\ (ok response = false
        \/ exists env, json response = Returns env
                       /\ ~ (status_code (base_resp env) == 0)%Q).

(** The provider answered the stored session [s] with the envelope [env]:
    a success status, a body that parses, and [base_resp.status_code] 0. *)
Definition healthy (host : Host) (s : string) (env : MiniMaxRemainsResponse)
  : Prop :=
  credential_holds host s
  /\ exists response,
       fetchWithTimeout host (quota_request s) = Returns response
       /\ ok response = true
       /\ json response = Returns env
       /\ (status_code (base_resp env) == 0)%Q.

(** The result of a successful query. *)
Definition succeeded (text : string) : QueryResult :=
  {| success := true; output := Some text; error := None |}.

(** * Properties of the formatter *)

Section FormatterFacts.

Variable t : I18n.Table.
Variable U : Utils.Helpers.
Variable Number_toString : number -> string.

Lemma report_no_data now resp session :
  data resp = None ->
  report U now resp session
  = [LHeader session "Coding Plan"; LBlank; LNoQuotaData].
Proof.
  intros Hd. unfold report. rewrite Hd. reflexivity.
Qed.

Lemma report_lacking now resp session d :
  data resp = Some d -> lacks_key_fields d = true ->
  report U now resp session
  = [LHeader session (planLabel (Some d)); LBlank; LNoQuotaData].
Proof.
  intros Hd Hl. unfold report. rewrite Hd, Hl. reflexivity.
Qed.

Lemma report_numeric now resp session d :
  data resp = Some d -> lacks_key_fields d = false ->
  report U now resp session
  = ([LHeader session (planLabel (Some d)); LBlank; LPromptLimit;
      LBar (Utils.calcRemainPercent U (usagePercent d));
      LUsed (used d) (total d)]
       ++ reset_lines d now ++ warning_lines d)%list.
Proof.
  intros Hd Hl. unfold report. rewrite Hd, Hl. reflexivity.
Qed.

Lemma reset_lines_only_reset d now l :
  In l (reset_lines d now) -> exists s, l = LResetIn s.
Proof.
  unfold reset_lines.
  destruct (next_reset_time d) as [r|]; [destruct (truthy_number r)|];
    simpl; intros H; try contradiction.
  destruct H as [<-|[]]. eauto.
Qed.

Lemma warning_lines_only_warning d l :
  In l (warning_lines d) -> l = LBlank \/ l = LLimitReached.
Proof.
  unfold warning_lines.
  destruct (ge (usagePercent d) HIGH_USAGE_THRESHOLD); simpl; intuition.
Qed.

Lemma bar_of_numeric now resp session d r :
  data resp = Some d -> lacks_key_fields d = false ->
  In (LBar r) (report U now resp session)
  <-> r = Utils.calcRemainPercent U (usagePercent d).
Proof.
  intros Hd Hl. rewrite (report_numeric now resp session d Hd Hl).
  split.
  - intros H. simpl in H.
    repeat (destruct H as [H|H]; [try discriminate; try (inversion H; reflexivity)|]).
    apply in_app_or in H. destruct H as [H|H].
    + apply reset_lines_only_reset in H. destruct H as [s H]. discriminate.
    + apply warning_lines_only_warning in H. destruct H; discriminate.
  - intros ->. simpl. auto.
Qed.

Lemma ge_iff x y : ge x y = true <-> (y <= x)%Q.
Proof. unfold ge. apply Qle_bool_iff. Qed.

Lemma gt_iff x y : gt x y = true <-> (y < x)%Q.
Proof.
  unfold gt. rewrite negb_true_iff. split.
  - intros H. apply Qnot_le_lt. intros Hle.
    apply Qle_bool_iff in Hle. congruence.
  - intros H. destruct (Qle_bool x y) eqn:E; [|reflexivity].
    apply Qle_bool_iff in E. exfalso. exact (Qlt_not_le _ _ H E).
Qed.

Lemma resetSeconds_nonneg r now : (0 <= resetSeconds r now)%Z.
Proof. unfold resetSeconds, max0_floor. apply Z.le_max_l. Qed.

Lemma resetSeconds_past r now :
  (r <= inject_Z now)%Q -> resetSeconds r now = 0%Z.
Proof.
  intros H. unfold resetSeconds, max0_floor.
  apply Z.max_l.
  change 0%Z with (Qfloor 0). apply Qfloor_resp_le.
  unfold Qdiv. setoid_replace 0%Q with (0 * / 1000)%Q by reflexivity.
  apply Qmult_le_compat_r.
  - unfold Qminus. rewrite <- (Qplus_opp_r (inject_Z now)).
    apply Qplus_le_compat; [exact H | apply Qle_refl].
  - discriminate.
Qed.

End FormatterFacts.

(** ** The "no quota data" report *)

(** C1, as the claim states it, fails: a payload that carries only
    [remaining_prompts] has no explicit percentage and no counts a percentage
    could be derived from, yet the report has the numeric lines, with
    [used = -5] and [total = 0]. *)
Lemma no_quota_data_claim_fails :
  let resp := Sample.envelope (Some Sample.remaining_only) in
  lacks_percentage_and_counts resp
  /\ report Sample.U 1000000 resp "MTc3MTA2NDA0Nnx"
     = [LHeader "MTc3MTA2NDA0Nnx" "Coding Plan"; LBlank; LPromptLimit;
        LBar 100; LUsed (-5) 0]
  /\ report Sample.U 1000000 resp "MTc3MTA2NDA0Nnx"
     <> [LHeader "MTc3MTA2NDA0Nnx" "Coding Plan"; LBlank; LNoQuotaData].
Proof.
  cbv zeta. split; [|split].
  - split; reflexivity.
  - reflexivity.
  - vm_compute. discriminate.
Qed.

(** C1, amended: when the envelope has no [data], or its [data] lacks both
    [total_prompts] and [remaining_prompts] (whatever [usage_percentage] and
    [used_prompts] hold), the report is exactly the header line, the blank
    separator and the "no quota data" line. *)
Theorem no_quota_data_report t U Number_toString now resp session :
  no_quota_data resp ->
  report U now resp session
  = [LHeader session (planLabel (data resp)); LBlank; LNoQuotaData]
  /\ formatMiniMaxUsage t U Number_toString now resp session
     = join_lines
         [render t U Number_toString (LHeader session (planLabel (data resp)));
          EmptyString;
          I18n.noQuotaData t].
Proof.
  intros H. unfold no_quota_data in H.
  assert (Hr : report U now resp session
               = [LHeader session (planLabel (data resp)); LBlank; LNoQuotaData]).
  { destruct (data resp) as [d|] eqn:Hd.
    - destruct H as [Ht Hm].
      apply (report_lacking U now resp session d Hd).
      unfold lacks_key_fields. rewrite Ht, Hm. reflexivity.
    - apply (report_no_data U now resp session Hd). }
  split; [exact Hr|].
  unfold formatMiniMaxUsage. rewrite Hr. reflexivity.
Qed.

Lemma no_quota_data_report_witness :
  let resp := Sample.envelope (Some Sample.percentage_only) in
  no_quota_data resp
  /\ formatMiniMaxUsage Sample.t Sample.U Sample.show_number 1000000 resp "MTc3MTA2NDA0Nnx"
     = join_lines ["Account:        **** (Coding Plan)"; EmptyString;
                   "No quota data available"].
Proof.
  cbv zeta. split.
  - split; reflexivity.
  - apply (no_quota_data_report Sample.t Sample.U Sample.show_number 1000000
             (Sample.envelope (Some Sample.percentage_only)) "MTc3MTA2NDA0Nnx").
    split; reflexivity.
Defined.

(** ** The remaining percentage *)

(** C2, as the claim states it, fails: a payload that carries an explicit
    [usage_percentage] of 50 and neither [total_prompts] nor
    [remaining_prompts] is reported as "no quota data"; no remaining
    percentage is shown at all. *)
Lemma explicit_percentage_claim_fails :
  let resp := Sample.envelope (Some Sample.percentage_only) in
  usage_percentage Sample.percentage_only = Some 50
  /\ report Sample.U 1000000 resp "MTc3MTA2NDA0Nnx"
     = [LHeader "MTc3MTA2NDA0Nnx" "Coding Plan"; LBlank; LNoQuotaData]
  /\ forall r, ~ In (LBar r) (report Sample.U 1000000 resp "MTc3MTA2NDA0Nnx").
Proof.
  cbv zeta. split; [reflexivity|split; [reflexivity|]].
  intros r H. vm_compute in H.
  repeat (destruct H as [H|H]; [discriminate|]). exact H.
Qed.

(** C2, amended: when the payload carries [total_prompts] or
    [remaining_prompts] and an explicit [usage_percentage] p, the remaining
    percentage of the report is [calcRemainPercent p], whatever the counts
    say; with the helper of the spec and p between 0 and 100 it is
    [100 - p]. *)
Theorem explicit_percentage_shown U now resp session d p :
  data resp = Some d ->
  lacks_key_fields d = false ->
  usage_percentage d = Some p ->
  (forall r, In (LBar r) (report U now resp session)
             <-> r = Utils.calcRemainPercent U p)
  /\ (clamps U -> (0 <= p)%Q -> (p <= 100)%Q ->
      (Utils.calcRemainPercent U p == 100 - p)%Q).
Proof.
  intros Hd Hl Hp. split.
  - intros r. rewrite (bar_of_numeric U now resp session d r Hd Hl).
    unfold usagePercent. rewrite Hp. reflexivity.
  - intros HU H0 H100. rewrite HU. unfold calcRemainPercent_spec.
    assert (Hle : (100 - p <= 100)%Q).
    { setoid_replace 100%Q with (100 - 0)%Q at 2 by reflexivity.
      unfold Qminus. apply Qplus_le_compat; [apply Qle_refl|].
      apply Qopp_le_compat. exact H0. }
    assert (Hge : (0 <= 100 - p)%Q).
    { setoid_replace 0%Q with (p - p)%Q by (symmetry; apply Qplus_opp_r).
      unfold Qminus. apply Qplus_le_compat; [exact H100 | apply Qle_refl]. }
    rewrite (Q.min_r 100 (100 - p) Hle). apply Q.max_r. exact Hge.
Qed.

Lemma explicit_percentage_shown_witness :
  let resp := Sample.envelope (Some Sample.disagreeing) in
  In (LBar 50) (report Sample.U 1000000 resp "MTc3MTA2NDA0Nnx")
  /\ (Utils.calcRemainPercent Sample.U 50 == 100 - 50)%Q.
Proof.
  cbv zeta.
  destruct (explicit_percentage_shown Sample.U 1000000
              (Sample.envelope (Some Sample.disagreeing)) "MTc3MTA2NDA0Nnx"
              Sample.disagreeing 50 eq_refl eq_refl eq_refl) as [Hbar Hval].
  split.
  - apply Hbar. reflexivity.
  - apply Hval.
    + intros p. reflexivity.
    + discriminate.
    + discriminate.
Defined.

(** ** The high-usage warning *)

Lemma warning_lines_spec d :
  ((HIGH_USAGE_THRESHOLD <= usagePercent d)%Q
   /\ warning_lines d = [LBlank; LLimitReached])
  \/ (~ (HIGH_USAGE_THRESHOLD <= usagePercent d)%Q /\ warning_lines d = []).
Proof.
  unfold warning_lines.
  destruct (ge (usagePercent d) HIGH_USAGE_THRESHOLD) eqn:E.
  - left. split; [apply ge_iff; exact E | reflexivity].
  - right. split; [|reflexivity].
    intros H. apply ge_iff in H. congruence.
Qed.

(** C6: on the numeric path the warning block (a blank line and the
    "limit reached" line) ends the report if and only if the computed usage
    percentage is at least 80; below 80 the report has no such line. *)
Theorem warning_iff_high_usage U now resp session d :
  data resp = Some d ->
  lacks_key_fields d = false ->
  HIGH_USAGE_THRESHOLD = 80
  /\ (In LLimitReached (report U now resp session)
      <-> (80 <= usagePercent d)%Q)
  /\ ((80 <= usagePercent d)%Q ->
      exists body,
        report U now resp session = (body ++ [LBlank; LLimitReached])%list
        /\ ~ In LLimitReached body).
Proof.
  intros Hd Hl. rewrite (report_numeric U now resp session d Hd Hl).
  assert (Hreset : ~ In LLimitReached (reset_lines d now)).
  { intros H. apply reset_lines_only_reset in H. destruct H as [s H].
    discriminate. }
  split; [reflexivity|]. split.
  - split.
    + intros H. simpl in H.
      repeat (destruct H as [H|H]; [discriminate|]).
      apply in_app_or in H. destruct H as [H|H]; [contradiction|].
      destruct (warning_lines_spec d) as [[Hge _]|[_ Hw]]; [exact Hge|].
      rewrite Hw in H. contradiction.
    + intros Hge.
      destruct (warning_lines_spec d) as [[_ Hw]|[Hlt _]]; [|contradiction].
      rewrite Hw. apply in_or_app. right. apply in_or_app. right.
      simpl. auto.
  - intros Hge.
    destruct (warning_lines_spec d) as [[_ Hw]|[Hlt _]]; [|contradiction].
    rewrite Hw.
    exists ([LHeader session (planLabel (Some d)); LBlank; LPromptLimit;
             LBar (Utils.calcRemainPercent U (usagePercent d));
             LUsed (used d) (total d)] ++ reset_lines d now)%list.
    split.
    + rewrite <- app_assoc. reflexivity.
    + intros H. apply in_app_or in H. destruct H as [H|H]; [|contradiction].
      simpl in H. repeat (destruct H as [H|H]; [discriminate|]). exact H.
Qed.

Lemma warning_iff_high_usage_witness :
  In LLimitReached
     (report Sample.U 1000000 (Sample.envelope (Some Sample.busy)) "MTc3MTA2NDA0Nnx")
  /\ ~ In LLimitReached
       (report Sample.U 1000000 (Sample.envelope (Some Sample.stale)) "MTc3MTA2NDA0Nnx").
Proof.
  split.
  - apply (warning_iff_high_usage Sample.U 1000000
             (Sample.envelope (Some Sample.busy)) "MTc3MTA2NDA0Nnx"
             Sample.busy eq_refl eq_refl).
    vm_compute. discriminate.
  - intros H.
    apply (warning_iff_high_usage Sample.U 1000000
             (Sample.envelope (Some Sample.stale)) "MTc3MTA2NDA0Nnx"
             Sample.stale eq_refl eq_refl) in H.
    vm_compute in H. apply H. reflexivity.
Defined.

(** ** The reset countdown *)

(** C7: every reset line of a report shows
    [max(0, floor((next_reset_time - now) / 1000))] seconds for the
    [next_reset_time] of the payload; that number is never negative, and it
    is 0 whenever [next_reset_time <= now]. *)
Theorem reset_countdown_nonnegative U now resp session s :
  In (LResetIn s) (report U now resp session) ->
  exists d r,
    data resp = Some d
    /\ next_reset_time d = Some r
    /\ s = Z.max 0 (Qfloor ((r - inject_Z now) / 1000))
    /\ (0 <= s)%Z
    /\ ((r <= inject_Z now)%Q -> s = 0%Z).
Proof.
  intros H. unfold report in H.
  destruct (data resp) as [d|] eqn:Hd.
  - destruct (lacks_key_fields d) eqn:Hl.
    + simpl in H. repeat (destruct H as [H|H]; [discriminate|]). contradiction.
    + simpl in H. repeat (destruct H as [H|H]; [discriminate|]).
      apply in_app_or in H. destruct H as [H|H].
      * unfold reset_lines in H.
        destruct (next_reset_time d) as [r|] eqn:Hr; [|contradiction].
        destruct (truthy_number r); [|contradiction].
        destruct H as [H|[]]. injection H as <-.
        exists d, r.
        split; [reflexivity|]. split; [exact Hr|]. split; [reflexivity|].
        split; [apply resetSeconds_nonneg | apply resetSeconds_past].
      * apply warning_lines_only_warning in H. destruct H; discriminate.
  - simpl in H. repeat (destruct H as [H|H]; [discriminate|]). contradiction.
Qed.

Lemma reset_countdown_nonnegative_witness :
  In (LResetIn 0)
     (report Sample.U 1000000 (Sample.envelope (Some Sample.stale)) "MTc3MTA2NDA0Nnx")
  /\ In (LResetIn 3600)
        (report Sample.U 1000000 (Sample.envelope (Some Sample.busy)) "MTc3MTA2NDA0Nnx")
  /\ exists d r,
       data (Sample.envelope (Some Sample.stale)) = Some d
       /\ next_reset_time d = Some r
       /\ 0%Z = Z.max 0 (Qfloor ((r - inject_Z 1000000) / 1000))
       /\ (0 <= 0)%Z
       /\ ((r <= inject_Z 1000000)%Q -> 0%Z = 0%Z).
Proof.
  split; [|split].
  - vm_compute. auto 10.
  - vm_compute. auto 10.
  - apply (reset_countdown_nonnegative Sample.U 1000000
             (Sample.envelope (Some Sample.stale)) "MTc3MTA2NDA0Nnx" 0%Z).
    vm_compute. auto 10.
Defined.

(** * Properties of the adapter *)

Section AdapterFacts.

Variable t : I18n.Table.
Variable U : Utils.Helpers.
Variable host : Host.
Variable MiniMaxAuthData : Type.

Ltac run := unfold bind, try_catch, ret, throw, settle, emit; simpl.

Lemma loadMiniMaxSession_run log :
loadMiniMaxSession host log
= match homedir host with
  | Throws e => (Throws e, log)
  | Returns _ =>
      (Returns
         match readFile host (configPath host) with
         | Returns content =>
             match JSON_parse host content with
             | Returns config => session_or_null config
             | Throws _ => None
             end
         | Throws _ => None
         end,
       (log ++ [EvReadFile (configPath host)])%list)
  end.
Proof.
unfold loadMiniMaxSession, configPath, home, do_readFile; run.
destruct (homedir host) as [dir|e]; [|reflexivity].
destruct (readFile host _) as [content|e]; [|reflexivity].
destruct (JSON_parse host content); reflexivity.
Qed.

Lemma loadMiniMaxSession_homeless log e :
homedir host = Throws e ->
loadMiniMaxSession host log = (Throws e, log).
Proof.
intros Hh. rewrite loadMiniMaxSession_run, Hh. reflexivity.
Qed.

Lemma loadMiniMaxSession_unreadable log :
credential_unreadable host ->
loadMiniMaxSession host log
= (Returns None, (log ++ [EvReadFile (configPath host)])%list).
Proof.
intros [[dir Hh] [[e He]|[content [e [Hc He]]]]];
  rewrite loadMiniMaxSession_run, Hh.
- rewrite He. reflexivity.
- rewrite Hc, He. reflexivity.
Qed.

Lemma loadMiniMaxSession_parsed log dir content config :
homedir host = Returns dir ->
readFile host (configPath host) = Returns content ->
JSON_parse host content = Returns config ->
loadMiniMaxSession host log
= (Returns (session_or_null config),
   (log ++ [EvReadFile (configPath host)])%list).
Proof.
intros Hh Hc Hp. rewrite loadMiniMaxSession_run, Hh, Hc, Hp. reflexivity.
Qed.

Lemma loadMiniMaxSession_returns log dir :
homedir host = Returns dir ->
exists s,
  loadMiniMaxSession host log
  = (Returns s, (log ++ [EvReadFile (configPath host)])%list).
Proof.
intros Hh. rewrite loadMiniMaxSession_run, Hh. eauto.
Qed.

Lemma fetch_calls_readFile log path :
fetch_calls (log ++ [EvReadFile path]) = fetch_calls log.
Proof.
unfold fetch_calls. rewrite filter_app. simpl.
rewrite app_nil_r. reflexivity.
Qed.

Lemma query_without_session auth log log1 s :
loadMiniMaxSession host log = (Returns s, log1) ->
falsy_session s = true ->
queryMiniMaxUsage t U host MiniMaxAuthData auth log
= (Returns (Some (failure (I18n.minimaxConfigRequired t))), log1).
Proof.
intros Hload Hs. unfold queryMiniMaxUsage, bind.
rewrite Hload, Hs. reflexivity.
Qed.

Lemma query_with_session auth log log1 s :
loadMiniMaxSession host log = (Returns (Some s), log1) ->
s <> EmptyString ->
queryMiniMaxUsage t U host MiniMaxAuthData auth log
= match fetchMiniMaxUsage t host s log1 with
  | (Returns usage, log2) =>
      (Returns (Some {| success := true;
                        output := Some (formatMiniMaxUsage t U
                                          (Number_toString host)
                                          (Date_now host) usage s);
                        error := None |}), log2)
  | (Throws err, log2) => (Returns (Some (failure (error_text err))), log2)
  end.
Proof.
intros Hload Hs. unfold queryMiniMaxUsage, bind at 1.
rewrite Hload.
assert (Hf : falsy_session (Some s) = false).
{ destruct s; [contradiction|reflexivity]. }
rewrite Hf. simpl nullish. unfold try_catch, bind, ret.
destruct (fetchMiniMaxUsage t host s log1) as [[usage|err] log2]; reflexivity.
Qed.

Lemma query_homeless auth log e :
homedir host = Throws e ->
queryMiniMaxUsage t U host MiniMaxAuthData auth log = (Throws e, log).
Proof.
intros Hh. unfold queryMiniMaxUsage, bind.
rewrite (loadMiniMaxSession_homeless log e Hh). reflexivity.
Qed.

Lemma credential_holds_nonempty s :
credential_holds host s -> s <> EmptyString.
Proof.
intros [_ [content [config [_ [_ [_ Hne]]]]]]. exact Hne.
Qed.

Lemma credential_holds_load log s :
credential_holds host s ->
loadMiniMaxSession host log
= (Returns (Some s), (log ++ [EvReadFile (configPath host)])%list).
Proof.
intros [[dir Hh] [content [config [Hc [Hp [Hs Hne]]]]]].
rewrite (loadMiniMaxSession_parsed log dir content config Hh Hc Hp).
unfold session_or_null. rewrite Hs.
destruct s; [contradiction|reflexivity].
Qed.

Lemma append_nonempty (a : string) c s : (a ++ String c s)%string <> EmptyString.
Proof. destruct a; discriminate. Qed.

Lemma join_lines_nonempty a b rest : join_lines (a :: b :: rest) <> EmptyString.
Proof. unfold join_lines. simpl. apply append_nonempty. Qed.

Lemma formatMiniMaxUsage_nonempty now resp s :
formatMiniMaxUsage t U (Number_toString host) now resp s <> EmptyString.
Proof.
unfold formatMiniMaxUsage, report.
destruct (data resp) as [d|]; [destruct (lacks_key_fields d)|];
  simpl map; apply join_lines_nonempty.
Qed.

End AdapterFacts.

(** ** Containment of failures *)

(** C3: the code breaks the claim.  [homedir()] is called in
    [loadMiniMaxSession] before its [try], and [queryMiniMaxUsage] awaits
    the loader before its own [try]: when [homedir()] throws, the loader and
    the query both throw that exception to the caller, with no file read and
    no network call, instead of returning a [QueryResult]. *)
Theorem homedir_failure_escapes t U host (MiniMaxAuthData : Type)
  (auth : option MiniMaxAuthData) log e :
  homedir host = Throws e ->
  loadMiniMaxSession host log = (Throws e, log)
  /\ queryMiniMaxUsage t U host MiniMaxAuthData auth log = (Throws e, log).
Proof.
  intros Hh. split.
  - apply loadMiniMaxSession_homeless. exact Hh.
  - apply query_homeless. exact Hh.
Qed.

Lemma homedir_failure_escapes_witness :
  queryMiniMaxUsage Sample.t Sample.U Sample.host_homeless unit None []
  = (Throws (ErrorObj "ENOENT: no such file or directory, uv_os_homedir"), []).
Proof.
  apply (homedir_failure_escapes Sample.t Sample.U Sample.host_homeless unit
           None [] (ErrorObj "ENOENT: no such file or directory, uv_os_homedir")).
  reflexivity.
Defined.

Lemma query_returns_after_load t U host (MiniMaxAuthData : Type)
  (auth : option MiniMaxAuthData) log s log1 :
  loadMiniMaxSession host log = (Returns s, log1) ->
  exists r log',
    queryMiniMaxUsage t U host MiniMaxAuthData auth log = (Returns (Some r), log').
Proof.
  intros Hload.
  destruct (falsy_session s) eqn:Hs.
  - rewrite (query_without_session t U host MiniMaxAuthData auth log _ s Hload Hs).
    eauto.
  - destruct s as [s|]; [|discriminate].
    assert (Hne : s <> EmptyString).
    { intros ->. discriminate. }
    rewrite (query_with_session t U host MiniMaxAuthData auth log _ s Hload Hne).
    destruct (fetchMiniMaxUsage t host s _) as [[usage|err] log2]; eauto.
Qed.

(** C4, as the claim states it, fails: when the transport throws an [Error]
    whose message is empty, the result is [{success: false, error: ""}]: the
    [error] of a failure is set, but it is the empty string, although the
    string table has text for all its messages. *)
Lemma result_invariant_claim_fails :
  queryMiniMaxUsage Sample.t Sample.U Sample.host_silent unit None []
  = (Returns (Some (failure EmptyString)),
     [EvReadFile "/home/dev/.config/opencode/minimax-session.json";
      EvFetch (quota_request "MTc3MTA2NDA0Nnx")])
  /\ success (failure EmptyString) = false
  /\ ~ populated (error (failure EmptyString))
  /\ messages_nonempty Sample.t.
Proof.
  split; [vm_compute; reflexivity|]. split; [reflexivity|]. split.
  - intros [s [H Hne]]. injection H as <-. apply Hne. reflexivity.
  - split; [discriminate|]. intros code text. discriminate.
Qed.

(** C4, amended: a result with [success] true has a non-empty [output] and
    no [error]; a result with [success] false has an [error] string and no
    [output] (never both, never neither); that [error] is non-empty whenever
    the string table has text for its two messages and the exceptions of the
    host have a text. *)
Theorem result_invariant t U host (MiniMaxAuthData : Type)
  (auth : option MiniMaxAuthData) log r log' :
  queryMiniMaxUsage t U host MiniMaxAuthData auth log = (Returns (Some r), log') ->
  if success r
  then populated (output r) /\ error r = None
  else output r = None
       /\ exists message,
            error r = Some message
            /\ (messages_nonempty t -> faults_described host ->
                message <> EmptyString).
Proof.
  destruct (homedir host) as [dir|e0] eqn:Hh;
    [|rewrite (query_homeless t U host MiniMaxAuthData auth log e0 Hh);
      discriminate].
  destruct (loadMiniMaxSession_returns host log dir Hh) as [s Hload].
  destruct (falsy_session s) eqn:Hs.
  - rewrite (query_without_session t U host MiniMaxAuthData auth log _ s Hload Hs).
    intros H. injection H as <- _. simpl. split; [reflexivity|].
    eexists. split; [reflexivity|]. intros [Hcfg _] _. exact Hcfg.
  - destruct s as [s|]; [|discriminate].
    assert (Hne : s <> EmptyString).
    { intros ->. discriminate. }
    rewrite (query_with_session t U host MiniMaxAuthData auth log _ s Hload Hne).
    unfold fetchMiniMaxUsage, do_fetchWithTimeout, bind, emit, settle, throw, ret.
    destruct (fetchWithTimeout host (quota_request s)) as [response|e] eqn:Hf.
    + destruct (ok response) eqn:Hok; simpl.
      * destruct (json response) as [env|e] eqn:Hj.
        -- destruct (Qeq_bool (status_code (base_resp env)) 0); simpl;
             intros H; injection H as <- _; simpl.
           ++ split; [|reflexivity].
              eexists. split; [reflexivity|]. apply formatMiniMaxUsage_nonempty.
           ++ split; [reflexivity|]. eexists. split; [reflexivity|].
              intros [_ Hapi] _. apply Hapi.
        -- intros H; injection H as <- _; simpl.
           split; [reflexivity|]. eexists. split; [reflexivity|].
           intros _ [_ Hbody]. apply (Hbody _ response e Hf). right. exact Hj.
      * destruct (text response) as [body|e] eqn:Ht;
          intros H; injection H as <- _; simpl;
          (split; [reflexivity|]); eexists; (split; [reflexivity|]).
        -- intros [_ Hapi] _. apply Hapi.
        -- intros _ [_ Hbody]. apply (Hbody _ response e Hf). left. exact Ht.
    + intros H; injection H as <- _; simpl.
      split; [reflexivity|]. eexists. split; [reflexivity|].
      intros _ [Hnet _]. apply (Hnet _ e Hf).
Qed.

Lemma result_invariant_witness :
  (exists r log',
     queryMiniMaxUsage Sample.t Sample.U Sample.host_busy unit None []
     = (Returns (Some r), log')
     /\ success r = true
     /\ populated (output r) /\ error r = None)
  /\ (exists r log',
        queryMiniMaxUsage Sample.t Sample.U Sample.host_invalid_session unit None []
        = (Returns (Some r), log')
        /\ success r = false
        /\ output r = None
        /\ exists message,
             error r = Some message /\ message <> EmptyString).
Proof.
  split.
  - assert (Hrun : exists r log',
               queryMiniMaxUsage Sample.t Sample.U Sample.host_busy unit None []
               = (Returns (Some r), log') /\ success r = true).
    { vm_compute. eexists. eexists. split; reflexivity. }
    destruct Hrun as [r [log' [Hrun Hs]]].
    exists r, log'. split; [exact Hrun|].
    pose proof (result_invariant Sample.t Sample.U Sample.host_busy unit None []
                  r log' Hrun) as Hinv.
    rewrite Hs in Hinv. split; [exact Hs | exact Hinv].
  - assert (Hrun : exists r log',
               queryMiniMaxUsage Sample.t Sample.U Sample.host_invalid_session
                 unit None []
               = (Returns (Some r), log') /\ success r = false).
    { vm_compute. eexists. eexists. split; reflexivity. }
    destruct Hrun as [r [log' [Hrun Hs]]].
    exists r, log'. split; [exact Hrun|].
    pose proof (result_invariant Sample.t Sample.U Sample.host_invalid_session
                  unit None [] r log' Hrun) as Hinv.
    rewrite Hs in Hinv. destruct Hinv as [Hout [message [Herr Htext]]].
    split; [exact Hs|]. split; [exact Hout|].
    exists message. split; [exact Herr|]. apply Htext.
    + split; [discriminate|]. intros code text. discriminate.
    + split.
      * intros req e H. vm_compute in H. discriminate.
      * intros req response e H [Hb|Hb]; vm_compute in H;
          injection H as <-; vm_compute in Hb; discriminate.
Defined.

(** ** The credential file *)

(** C8: when the credential file is missing or unreadable, or its content is
    not JSON, [loadMiniMaxSession] returns [null] without throwing and
    [queryMiniMaxUsage] returns the config-required failure; the only event
    is the read of the file, so no network call is made. *)
Theorem unreadable_credential_no_network t U host (MiniMaxAuthData : Type)
  (auth : option MiniMaxAuthData) log :
  credential_unreadable host ->
  let log' := (log ++ [EvReadFile (configPath host)])%list in
  loadMiniMaxSession host log = (Returns None, log')
  /\ queryMiniMaxUsage t U host MiniMaxAuthData auth log
     = (Returns (Some {| success := false;
                         output := None;
                         error := Some (I18n.minimaxConfigRequired t) |}), log')
  /\ fetch_calls log' = fetch_calls log.
Proof.
  intros H log'. subst log'.
  pose proof (loadMiniMaxSession_unreadable host log H) as Hload.
  split; [exact Hload|]. split.
  - apply (query_without_session t U host MiniMaxAuthData auth log _ None Hload).
    reflexivity.
  - apply fetch_calls_readFile.
Qed.

Lemma unreadable_credential_no_network_witness :
  (queryMiniMaxUsage Sample.t Sample.U Sample.host_missing unit None []
   = (Returns (Some (failure "MiniMax session cookie required")),
      [EvReadFile "/home/dev/.config/opencode/minimax-session.json"])
   /\ fetch_calls [EvReadFile "/home/dev/.config/opencode/minimax-session.json"] = 0%nat)
  /\ (queryMiniMaxUsage Sample.t Sample.U Sample.host_malformed unit None []
      = (Returns (Some (failure "MiniMax session cookie required")),
         [EvReadFile "/home/dev/.config/opencode/minimax-session.json"])).
Proof.
  split.
  - assert (H : credential_unreadable Sample.host_missing).
    { split; [eexists; reflexivity|]. left. eexists. reflexivity. }
    destruct (unreadable_credential_no_network Sample.t Sample.U
                Sample.host_missing unit None [] H) as [_ [Hq Hn]].
    split; [exact Hq | exact Hn].
  - assert (H : credential_unreadable Sample.host_malformed).
    { split; [eexists; reflexivity|]. right. eexists. eexists.
      split; reflexivity. }
    destruct (unreadable_credential_no_network Sample.t Sample.U
                Sample.host_malformed unit None [] H) as [_ [Hq _]].
    exact Hq.
Defined.

(** C10: when the credential file (found under the directory [homedir()]
    returns) parses and its [session] is absent or the
    empty string, [loadMiniMaxSession] returns [null] and
    [queryMiniMaxUsage] returns the config-required failure, with the read
    of the file as only event: the same result, and no more network calls,
    than for an absent credential. *)
Theorem empty_session_is_absent t U host (MiniMaxAuthData : Type)
  (auth : option MiniMaxAuthData) log dir content config :
  homedir host = Returns dir ->
  readFile host (configPath host) = Returns content ->
  JSON_parse host content = Returns config ->
  session config = None \/ session config = Some EmptyString ->
  let log' := (log ++ [EvReadFile (configPath host)])%list in
  loadMiniMaxSession host log = (Returns None, log')
  /\ queryMiniMaxUsage t U host MiniMaxAuthData auth log
     = (Returns (Some {| success := false;
                         output := None;
                         error := Some (I18n.minimaxConfigRequired t) |}), log')
  /\ fetch_calls log' = fetch_calls log.
Proof.
  intros Hh Hc Hp Hs log'. subst log'.
  assert (Hload : loadMiniMaxSession host log
                  = (Returns None, (log ++ [EvReadFile (configPath host)])%list)).
  { rewrite (loadMiniMaxSession_parsed host log dir content config Hh Hc Hp).
    unfold session_or_null. destruct Hs as [-> | ->]; reflexivity. }
  split; [exact Hload|]. split.
  - apply (query_without_session t U host MiniMaxAuthData auth log _ None Hload).
    reflexivity.
  - apply fetch_calls_readFile.
Qed.

Lemma empty_session_is_absent_witness :
  queryMiniMaxUsage Sample.t Sample.U Sample.host_empty_session unit None []
  = (Returns (Some (failure "MiniMax session cookie required")),
     [EvReadFile "/home/dev/.config/opencode/minimax-session.json"])
  /\ fetch_calls [EvReadFile "/home/dev/.config/opencode/minimax-session.json"] = 0%nat.
Proof.
  destruct (empty_session_is_absent Sample.t Sample.U Sample.host_empty_session
              unit None [] "/home/dev" "{session:empty}"
              {| session := Some EmptyString |}
              eq_refl eq_refl eq_refl (or_intror eq_refl)) as [_ [Hq Hn]].
  split; [exact Hq | exact Hn].
Defined.

(** ** Transport failures *)

Lemma fetchMiniMaxUsage_run t host s log :
  let log' := (log ++ [EvFetch (quota_request s)])%list in
  fetchMiniMaxUsage t host s log
  = match fetchWithTimeout host (quota_request s) with
    | Throws e => (Throws e, log')
    | Returns response =>
        if ok response then
          match json response with
          | Throws e => (Throws e, log')
          | Returns env =>
              if Qeq_bool (status_code (base_resp env)) 0
              then (Returns env, log')
              else (Throws (ErrorObj
                              (I18n.minimaxApiError t
                                 (status_code (base_resp env))
                                 (or_else (status_msg (base_resp env))
                                    "Unknown error"))), log')
          end
        else
          match text response with
          | Throws e => (Throws e, log')
          | Returns body =>
              (Throws (ErrorObj (I18n.minimaxApiError t (status response) body)),
               log')
          end
    end.
Proof.
  unfold fetchMiniMaxUsage, do_fetchWithTimeout, bind, emit, settle, throw, ret.
  destruct (fetchWithTimeout host (quota_request s)) as [response|e]; [|reflexivity].
  destruct (ok response); simpl.
  - destruct (json response) as [env|e]; [|reflexivity].
    destruct (Qeq_bool (status_code (base_resp env)) 0); reflexivity.
  - destruct (text response); reflexivity.
Qed.

(** C9, as the claim states it, fails: with a 200 answer whose body is not
    JSON, [fetchMiniMaxUsage] raises although the HTTP status is a success
    and no envelope reports a non-zero code; the error of the result is the
    text of the parse failure, with no status in it. *)
Lemma transport_claim_fails :
  raises (fetchMiniMaxUsage Sample.t Sample.host_unparsable "MTc3MTA2NDA0Nnx") []
  /\ ~ api_failure Sample.host_unparsable "MTc3MTA2NDA0Nnx"
  /\ queryMiniMaxUsage Sample.t Sample.U Sample.host_unparsable unit None []
     = (Returns (Some (failure "Unexpected token < in JSON at position 0")),
        [EvReadFile "/home/dev/.config/opencode/minimax-session.json";
         EvFetch (quota_request "MTc3MTA2NDA0Nnx")]).
Proof.
  split; [|split].
  - eexists. eexists. vm_compute. reflexivity.
  - intros [response [Hf [Hok|[env [Hj _]]]]].
    + vm_compute in Hf. injection Hf as <-. discriminate.
    + vm_compute in Hf. injection Hf as <-. discriminate.
  - vm_compute. reflexivity.
Qed.

(** C9, amended: for a stored session and a transport call that returns a
    response, [fetchMiniMaxUsage] raises
    [Error(t.minimaxApiError(status, body))] when the HTTP status is not a
    success and the body can be read; when the status is a success and the
    body parses to an envelope it raises exactly when
    [base_resp.status_code] is not 0, with
    [Error(t.minimaxApiError(status_code, status_msg || "Unknown error"))];
    [queryMiniMaxUsage] then returns the failure with that message, which
    contains a non-empty [status_msg] when the template shows its text.
    A fault of the transport call, of the body read or of the parse is
    raised as it is, and reported with its own text. *)
Theorem transport_failure_reported t U host (MiniMaxAuthData : Type)
  (auth : option MiniMaxAuthData) log s :
  credential_holds host s ->
  let log1 := (log ++ [EvReadFile (configPath host)])%list in
  let log2 := (log1 ++ [EvFetch (quota_request s)])%list in
  let query := queryMiniMaxUsage t U host MiniMaxAuthData auth log in
  (forall response body,
      fetchWithTimeout host (quota_request s) = Returns response ->
      ok response = false -> text response = Returns body ->
      let message := I18n.minimaxApiError t (status response) body in
      fetchMiniMaxUsage t host s log1 = (Throws (ErrorObj message), log2)
      /\ query = (Returns (Some (failure message)), log2))
  /\ (forall response env,
         fetchWithTimeout host (quota_request s) = Returns response ->
         ok response = true -> json response = Returns env ->
         let code := status_code (base_resp env) in
         let message :=
           I18n.minimaxApiError t code
             (or_else (status_msg (base_resp env)) "Unknown error") in
         (raises (fetchMiniMaxUsage t host s) log1 <-> ~ (code == 0)%Q)
         /\ (~ (code == 0)%Q ->
             fetchMiniMaxUsage t host s log1 = (Throws (ErrorObj message), log2)
             /\ query = (Returns (Some (failure message)), log2)
             /\ (template_shows_text t ->
                 forall msg, status_msg (base_resp env) = Some msg ->
                             msg <> EmptyString ->
                             includes msg message = true)))
  /\ (forall e,
         fetchWithTimeout host (quota_request s) = Throws e
         \/ (exists response,
                fetchWithTimeout host (quota_request s) = Returns response
                /\ ((ok response = false /\ text response = Throws e)
                    \/ (ok response = true /\ json response = Throws e))) ->
         fetchMiniMaxUsage t host s log1 = (Throws e, log2)
         /\ query = (Returns (Some (failure (error_text e))), log2)).
Proof.
  intros Hcred log1 log2 query.
  pose proof (credential_holds_load host log s Hcred) as Hload.
  assert (Hne : s <> EmptyString).
  { apply (credential_holds_nonempty host s Hcred). }
  pose proof (query_with_session t U host MiniMaxAuthData auth log _ s Hload Hne)
    as Hq.
  fold query in Hq. fold log1 in Hq.
  pose proof (fetchMiniMaxUsage_run t host s log1) as Hrun.
  cbv zeta in Hrun. fold log2 in Hrun.
  split; [|split].
  - intros response body Hf Hok Ht message.
    rewrite Hf, Hok, Ht in Hrun. fold message in Hrun.
    split; [exact Hrun|]. rewrite Hq, Hrun. reflexivity.
  - intros response env Hf Hok Hj code message.
    rewrite Hf, Hok, Hj in Hrun. fold code in Hrun. fold message in Hrun.
    destruct (Qeq_bool code 0) eqn:Hz.
    + apply Qeq_bool_iff in Hz. split.
      * split.
        -- intros [e [l Hr]]. rewrite Hrun in Hr. discriminate.
        -- intros Hnz. contradiction.
      * intros Hnz. contradiction.
    + assert (Hnz : ~ (code == 0)%Q).
      { intros H. apply Qeq_bool_iff in H. congruence. }
      split.
      * split; [intros _; exact Hnz|].
        intros _. exists (ErrorObj message), log2. exact Hrun.
      * intros _. split; [exact Hrun|]. split.
        -- rewrite Hq, Hrun. reflexivity.
        -- intros Hshow msg Hmsg Hmne. unfold message. rewrite Hmsg.
           unfold or_else. destruct msg; [contradiction|]. apply Hshow.
  - intros e [Hf|[response [Hf [[Hok Ht]|[Hok Hj]]]]].
    + rewrite Hf in Hrun. split; [exact Hrun|]. rewrite Hq, Hrun. reflexivity.
    + rewrite Hf, Hok, Ht in Hrun. split; [exact Hrun|].
      rewrite Hq, Hrun. reflexivity.
    + rewrite Hf, Hok, Hj in Hrun. split; [exact Hrun|].
      rewrite Hq, Hrun. reflexivity.
Qed.

Lemma prefix_refl s : String.prefix s s = true.
Proof.
  induction s as [|a s IH]; simpl; [reflexivity|].
  destruct (ascii_dec a a); [exact IH | contradiction].
Qed.

Lemma includes_self s : includes s s = true.
Proof.
  destruct s as [|a s]; [reflexivity|].
  cbn [includes]. rewrite prefix_refl. reflexivity.
Qed.

Lemma includes_after p s : includes s (p ++ s)%string = true.
Proof.
  induction p as [|a p IH].
  - apply includes_self.
  - change (String a p ++ s)%string with (String a (p ++ s)%string).
    cbn [includes]. rewrite IH.
    destruct (String.prefix s (String a (p ++ s))); reflexivity.
Qed.

Lemma transport_failure_reported_witness :
  credential_holds Sample.host_invalid_session "MTc3MTA2NDA0Nnx"
  /\ queryMiniMaxUsage Sample.t Sample.U Sample.host_invalid_session unit None []
     = (Returns (Some (failure "MiniMax API request failed: invalid session")),
        [EvReadFile "/home/dev/.config/opencode/minimax-session.json";
         EvFetch (quota_request "MTc3MTA2NDA0Nnx")])
  /\ includes "invalid session" "MiniMax API request failed: invalid session" = true.
Proof.
  assert (Hcred : credential_holds Sample.host_invalid_session "MTc3MTA2NDA0Nnx").
  { split; [exists "/home/dev"; reflexivity|].
    exists "{session:MTc3MTA2NDA0Nnx}", {| session := Some "MTc3MTA2NDA0Nnx" |}.
    repeat split; discriminate. }
  split; [exact Hcred|].
  destruct (transport_failure_reported Sample.t Sample.U
              Sample.host_invalid_session unit None [] "MTc3MTA2NDA0Nnx" Hcred)
    as [_ [Henv _]].
  destruct (Henv _ _ eq_refl eq_refl eq_refl) as [_ Hcode].
  destruct Hcode as [_ [Hq Hshow]].
  { intros H. vm_compute in H. discriminate. }
  split; [exact Hq|].
  apply (Hshow (fun code text => includes_after _ text) "invalid session" eq_refl).
  discriminate.
Defined.

(** * Further properties of the formatter *)

Lemma gt_false_iff x y : gt x y = false <-> (x <= y)%Q.
Proof.
  unfold gt. rewrite negb_false_iff. apply Qle_bool_iff.
Qed.

Lemma truthy_number_iff r : truthy_number r = true <-> ~ (r == 0)%Q.
Proof.
  unfold truthy_number. rewrite negb_true_iff. split.
  - apply Qeq_bool_neq.
  - intros H. destruct (Qeq_bool r 0) eqn:E; [|reflexivity].
    apply Qeq_bool_iff in E. contradiction.
Qed.

Lemma in_numeric_report U now resp session d l :
  data resp = Some d -> lacks_key_fields d = false ->
  In l (report U now resp session)
  <-> l = LHeader session (planLabel (Some d)) \/ l = LBlank \/ l = LPromptLimit
      \/ l = LBar (Utils.calcRemainPercent U (usagePercent d))
      \/ l = LUsed (used d) (total d)
      \/ In l (reset_lines d now) \/ In l (warning_lines d).
Proof.
  intros Hd Hl. rewrite (report_numeric U now resp session d Hd Hl).
  rewrite in_app_iff, in_app_iff. simpl.
  intuition (auto; congruence).
Qed.

(** X2: on the numeric path the report has one kind of "used X / Y" line,
    with Y = [total_prompts] (0 when absent) and X = [used_prompts] when the
    payload has it, else total minus [remaining_prompts], else 0. *)
Theorem used_line_shows_resolved_counts U now resp session d :
  data resp = Some d ->
  lacks_key_fields d = false ->
  (forall u tt, In (LUsed u tt) (report U now resp session)
                <-> u = used d /\ tt = total d)
  /\ total d = (total_prompts d ?? 0)
  /\ (forall x, used_prompts d = Some x -> used d = x)
  /\ (forall rm, used_prompts d = None -> remaining_prompts d = Some rm ->
                 used d = (total d - rm)%Q)
  /\ (used_prompts d = None -> remaining_prompts d = None -> (used d == 0)%Q).
Proof.
  intros Hd Hl. split; [|split; [reflexivity|split; [|split]]].
  - intros u tt. rewrite (in_numeric_report U now resp session d _ Hd Hl).
    split.
    + intros [H|[H|[H|[H|[H|[H|H]]]]]]; try discriminate.
      * injection H as -> ->. split; reflexivity.
      * apply reset_lines_only_reset in H. destruct H as [s H]. discriminate.
      * apply warning_lines_only_warning in H. destruct H; discriminate.
    + intros [-> ->]. auto 10.
  - intros x Hu. unfold used. rewrite Hu. reflexivity.
  - intros rm Hu Hr. unfold used. rewrite Hu, Hr. reflexivity.
  - intros Hu Hr. unfold used. rewrite Hu, Hr. simpl nullish. ring.
Qed.

Lemma used_line_shows_resolved_counts_witness :
  In (LUsed (100 - 30) 100)
     (report Sample.U 1000000 (Sample.envelope (Some Sample.total_and_remaining))
        "MTc3MTA2NDA0Nnx").
Proof.
  apply (used_line_shows_resolved_counts Sample.U 1000000
           (Sample.envelope (Some Sample.total_and_remaining)) "MTc3MTA2NDA0Nnx"
           Sample.total_and_remaining eq_refl eq_refl).
  split; reflexivity.
Defined.

(** X3: the division by the total is guarded.  With no explicit percentage
    and a total that is zero, negative or absent, the usage percentage is 0
    whatever the used count: the bar shows [calcRemainPercent 0] and there is
    no warning. *)
Theorem zero_total_no_division U now resp session d :
  data resp = Some d ->
  lacks_key_fields d = false ->
  usage_percentage d = None ->
  (total d <= 0)%Q ->
  usagePercent d = 0
  /\ (forall r, In (LBar r) (report U now resp session)
                <-> r = Utils.calcRemainPercent U 0)
  /\ ~ In LLimitReached (report U now resp session).
Proof.
  intros Hd Hl Hp Ht.
  assert (Hu : usagePercent d = 0).
  { unfold usagePercent. rewrite Hp. simpl nullish.
    apply gt_false_iff in Ht. rewrite Ht. reflexivity. }
  split; [exact Hu|split].
  - intros r. rewrite (bar_of_numeric U now resp session d r Hd Hl).
    rewrite Hu. reflexivity.
  - rewrite (in_numeric_report U now resp session d _ Hd Hl).
    intros [H|[H|[H|[H|[H|[H|H]]]]]]; try discriminate.
    + apply reset_lines_only_reset in H. destruct H as [s H]. discriminate.
    + unfold warning_lines in H. rewrite Hu in H. simpl in H. exact H.
Qed.

Lemma zero_total_no_division_witness :
  usagePercent Sample.zero_total = 0
  /\ In (LUsed 50 0)
        (report Sample.U 1000000 (Sample.envelope (Some Sample.zero_total))
           "MTc3MTA2NDA0Nnx")
  /\ ~ In LLimitReached
         (report Sample.U 1000000 (Sample.envelope (Some Sample.zero_total))
            "MTc3MTA2NDA0Nnx").
Proof.
  destruct (zero_total_no_division Sample.U 1000000
              (Sample.envelope (Some Sample.zero_total)) "MTc3MTA2NDA0Nnx"
              Sample.zero_total eq_refl eq_refl eq_refl) as [Hu [_ Hw]].
  { discriminate. }
  split; [exact Hu|split; [|exact Hw]].
  vm_compute. auto 10.
Defined.

(** X4: an explicit [usage_percentage] alone decides the warning: on the
    numeric path the warning is shown if and only if that percentage is at
    least 80, while the "used X / Y" line still shows the counts of the
    payload, which are not reconciled with it. *)
Theorem explicit_percentage_drives_warning U now resp session d p :
  data resp = Some d ->
  lacks_key_fields d = false ->
  usage_percentage d = Some p ->
  (In LLimitReached (report U now resp session) <-> (80 <= p)%Q)
  /\ In (LUsed (used d) (total d)) (report U now resp session).
Proof.
  intros Hd Hl Hp.
  assert (Hu : usagePercent d = p).
  { unfold usagePercent. rewrite Hp. reflexivity. }
  split.
  - rewrite (in_numeric_report U now resp session d _ Hd Hl). split.
    + intros [H|[H|[H|[H|[H|[H|H]]]]]]; try discriminate.
      * apply reset_lines_only_reset in H. destruct H as [s H]. discriminate.
      * destruct (warning_lines_spec d) as [[Hge _]|[_ Hw]].
        -- rewrite Hu in Hge. exact Hge.
        -- rewrite Hw in H. contradiction.
    + intros Hge. do 6 right.
      destruct (warning_lines_spec d) as [[_ Hw]|[Hlt _]].
      * rewrite Hw. simpl. auto.
      * rewrite Hu in Hlt. contradiction.
  - apply (in_numeric_report U now resp session d _ Hd Hl). auto 10.
Qed.

Lemma explicit_percentage_drives_warning_witness :
  In LLimitReached
     (report Sample.U 1000000 (Sample.envelope (Some Sample.overridden))
        "MTc3MTA2NDA0Nnx")
  /\ In (LUsed 10 100)
        (report Sample.U 1000000 (Sample.envelope (Some Sample.overridden))
           "MTc3MTA2NDA0Nnx").
Proof.
  destruct (explicit_percentage_drives_warning Sample.U 1000000
              (Sample.envelope (Some Sample.overridden)) "MTc3MTA2NDA0Nnx"
              Sample.overridden 90 eq_refl eq_refl eq_refl) as [Hw Hu].
  split; [|exact Hu].
  apply Hw. discriminate.
Defined.

(** X5: a report has a reset line exactly when it is on the numeric path and
    [next_reset_time] is present and not 0; the line then carries the
    countdown computed from it.  A timestamp of 0 gives no reset line. *)
Theorem reset_line_iff U now resp session s :
  In (LResetIn s) (report U now resp session)
  <-> exists d r,
        data resp = Some d
        /\ lacks_key_fields d = false
        /\ next_reset_time d = Some r
        /\ ~ (r == 0)%Q
        /\ s = resetSeconds r now.
Proof.
  split.
  - intros H. unfold report in H.
    destruct (data resp) as [d|] eqn:Hd.
    + destruct (lacks_key_fields d) eqn:Hl.
      * simpl in H. repeat (destruct H as [H|H]; [discriminate|]). contradiction.
      * simpl in H. repeat (destruct H as [H|H]; [discriminate|]).
        apply in_app_or in H. destruct H as [H|H].
        -- unfold reset_lines in H.
           destruct (next_reset_time d) as [r|] eqn:Hr; [|contradiction].
           destruct (truthy_number r) eqn:Htr; [|contradiction].
           destruct H as [H|[]]. injection H as <-.
           exists d, r. apply truthy_number_iff in Htr. auto.
        -- apply warning_lines_only_warning in H. destruct H; discriminate.
    + simpl in H. repeat (destruct H as [H|H]; [discriminate|]). contradiction.
  - intros [d [r [Hd [Hl [Hr [Hnz ->]]]]]].
    apply (in_numeric_report U now resp session d _ Hd Hl).
    do 5 right. left. unfold reset_lines. rewrite Hr.
    apply truthy_number_iff in Hnz. rewrite Hnz. simpl. auto.
Qed.

(** X6: for a reset time that is not in the past the countdown is the whole
    number of seconds left, rounded down: it never overstates the time left
    and is short of it by less than one second. *)
Theorem reset_countdown_rounds_down r now :
  (inject_Z now <= r)%Q ->
  (inject_Z (resetSeconds r now) <= (r - inject_Z now) / 1000)%Q
  /\ ((r - inject_Z now) / 1000 < inject_Z (resetSeconds r now + 1))%Q.
Proof.
  intros H. unfold resetSeconds, max0_floor.
  assert (Hx : (0 <= (r - inject_Z now) / 1000)%Q).
  { unfold Qdiv. setoid_replace 0%Q with (0 * / 1000)%Q by reflexivity.
    apply Qmult_le_compat_r; [|discriminate].
    unfold Qminus. rewrite <- (Qplus_opp_r (inject_Z now)).
    apply Qplus_le_compat; [exact H | apply Qle_refl]. }
  assert (Hf : (0 <= Qfloor ((r - inject_Z now) / 1000))%Z).
  { change 0%Z with (Qfloor 0). apply Qfloor_resp_le. exact Hx. }
  rewrite (Z.max_r _ _ Hf). split.
  - apply Qfloor_le.
  - apply Qlt_floor.
Qed.

Lemma reset_countdown_rounds_down_witness :
  (inject_Z (resetSeconds 4600999 1000000) <= (4600999 - inject_Z 1000000) / 1000)%Q
  /\ ((4600999 - inject_Z 1000000) / 1000
      < inject_Z (resetSeconds 4600999 1000000 + 1))%Q
  /\ resetSeconds 4600999 1000000 = 3600%Z.
Proof.
  destruct (reset_countdown_rounds_down 4600999 1000000) as [Hlo Hhi].
  { discriminate. }
  split; [exact Hlo|split; [exact Hhi|reflexivity]].
Defined.

(** X7: the countdown is monotone: a later reset time, or an earlier reading
    of the clock, never gives a smaller countdown. *)
Theorem reset_countdown_monotone r1 r2 now1 now2 :
  (r1 <= r2)%Q ->
  (now2 <= now1)%Z ->
  (resetSeconds r1 now1 <= resetSeconds r2 now2)%Z.
Proof.
  intros Hr Hn. unfold resetSeconds, max0_floor.
  apply Z.max_le_compat_l. apply Qfloor_resp_le.
  unfold Qdiv. apply Qmult_le_compat_r; [|discriminate].
  unfold Qminus. apply Qplus_le_compat; [exact Hr|].
  apply Qopp_le_compat. rewrite <- Zle_Qle. exact Hn.
Qed.

Lemma reset_countdown_monotone_witness :
  (resetSeconds 400000%Q 1000000 <= resetSeconds 4600000%Q 1000000)%Z
  /\ resetSeconds 400000%Q 1000000 = 0%Z
  /\ resetSeconds 4600000%Q 1000000 = 3600%Z.
Proof.
  split; [|split; reflexivity].
  apply reset_countdown_monotone.
  - discriminate.
  - apply Z.le_refl.
Defined.

(** X8: the "no quota data" line is in a report exactly when the envelope
    has no [data], or its [data] lacks both [total_prompts] and
    [remaining_prompts]; the report is then the account line, the blank line
    and that line only, so it has no prompt-limit line, no bar, no "used"
    line, no reset line and no warning. *)
Theorem no_quota_line_iff U now resp session :
  (In LNoQuotaData (report U now resp session) <-> no_quota_data resp)
  /\ (In LNoQuotaData (report U now resp session) ->
      report U now resp session
      = [LHeader session (planLabel (data resp)); LBlank; LNoQuotaData]
      /\ ~ In LPromptLimit (report U now resp session)
      /\ (forall r, ~ In (LBar r) (report U now resp session))
      /\ (forall u tt, ~ In (LUsed u tt) (report U now resp session))
      /\ (forall s, ~ In (LResetIn s) (report U now resp session))
      /\ ~ In LLimitReached (report U now resp session)).
Proof.
  assert (Hthree : forall l,
             In l [LHeader session (planLabel (data resp)); LBlank; LNoQuotaData] ->
             l = LHeader session (planLabel (data resp))
             \/ l = LBlank \/ l = LNoQuotaData).
  { intros l H. simpl in H. intuition. }
  assert (Hshort : report U now resp session
                   = [LHeader session (planLabel (data resp)); LBlank; LNoQuotaData] ->
                   ~ In LPromptLimit (report U now resp session)
                   /\ (forall r, ~ In (LBar r) (report U now resp session))
                   /\ (forall u tt, ~ In (LUsed u tt) (report U now resp session))
                   /\ (forall s, ~ In (LResetIn s) (report U now resp session))
                   /\ ~ In LLimitReached (report U now resp session)).
  { intros ->. repeat split; intros; intros H; apply Hthree in H;
      destruct H as [H|[H|H]]; discriminate. }
  unfold no_quota_data.
  destruct (data resp) as [d|] eqn:Hd.
  - destruct (lacks_key_fields d) eqn:Hl.
    + pose proof (report_lacking U now resp session d Hd Hl) as Hr.
      unfold lacks_key_fields in Hl. apply andb_true_iff in Hl.
      destruct Hl as [Ht Hm].
      destruct (total_prompts d); [discriminate|].
      destruct (remaining_prompts d); [discriminate|].
      split.
      * split; [auto|]. intros _. rewrite Hr. simpl. auto.
      * intros _. split; [exact Hr | exact (Hshort Hr)].
    + assert (Hno : ~ In LNoQuotaData (report U now resp session)).
      { rewrite (in_numeric_report U now resp session d _ Hd Hl).
        intros [H|[H|[H|[H|[H|[H|H]]]]]]; try discriminate.
        - apply reset_lines_only_reset in H. destruct H as [s H]. discriminate.
        - apply warning_lines_only_warning in H. destruct H; discriminate. }
      split.
      * split; [intros H; contradiction|].
        intros [Ht Hm]. unfold lacks_key_fields in Hl.
        rewrite Ht, Hm in Hl. discriminate.
      * intros H. contradiction.
  - pose proof (report_no_data U now resp session Hd) as Hr.
    split.
    + split; [auto|]. intros _. rewrite Hr. simpl. auto.
    + intros _. split; [exact Hr | exact (Hshort Hr)].
Qed.

Lemma string_app_assoc (a b c : string) :
  ((a ++ b) ++ c = a ++ (b ++ c))%string.
Proof.
  induction a as [|x a IH]; simpl; [reflexivity|]. rewrite IH. reflexivity.
Qed.

(** X9: every formatted text starts with the account line followed by an
    empty line and at least one more line.  The account line shows the
    session through [maskString session 8] and the label
    "Coding Plan - <plan_name>" when the payload names a plan; an absent or
    empty [plan_name] gives the label "Coding Plan". *)
Theorem header_comes_first t U Number_toString now resp session :
  (exists line rest,
      report U now resp session
      = LHeader session (planLabel (data resp)) :: LBlank :: line :: rest
      /\ formatMiniMaxUsage t U Number_toString now resp session
         = (I18n.account t ++ "        " ++ Utils.maskString U session 8
              ++ " (" ++ planLabel (data resp) ++ ")"
              ++ newline ++ newline
              ++ join_lines (map (render t U Number_toString) (line :: rest)))%string)
  /\ (forall d p, data resp = Some d -> plan_name d = Some p -> p <> EmptyString ->
                  planLabel (data resp) = ("Coding Plan - " ++ p)%string)
  /\ (forall d, data resp = Some d ->
                plan_name d = None \/ plan_name d = Some EmptyString ->
                planLabel (data resp) = "Coding Plan")
  /\ (data resp = None -> planLabel (data resp) = "Coding Plan").
Proof.
  split; [|split; [|split]].
  - assert (Hshape : exists line rest,
               report U now resp session
               = LHeader session (planLabel (data resp)) :: LBlank :: line :: rest).
    { unfold report.
      destruct (data resp) as [d|]; [destruct (lacks_key_fields d)|];
        simpl; eauto. }
    destruct Hshape as [line [rest Hshape]].
    exists line, rest. split; [exact Hshape|].
    unfold formatMiniMaxUsage. rewrite Hshape.
    unfold join_lines. cbn [map String.concat render].
    repeat rewrite string_app_assoc. reflexivity.
  - intros d p Hd Hp Hne. rewrite Hd. unfold planLabel. rewrite Hp.
    destruct p; [contradiction|reflexivity].
  - intros d Hd [Hp|Hp]; rewrite Hd; unfold planLabel; rewrite Hp; reflexivity.
  - intros Hd. rewrite Hd. reflexivity.
Qed.

(** * Further properties of the adapter *)

Lemma fetch_calls_fetch log req :
  fetch_calls (log ++ [EvFetch req]) = S (fetch_calls log).
Proof.
  unfold fetch_calls. rewrite filter_app, length_app. simpl.
  apply Nat.add_1_r.
Qed.

Lemma session_or_null_some config s :
  session_or_null config = Some s <-> session config = Some s /\ s <> EmptyString.
Proof.
  unfold session_or_null. destruct (session config) as [s0|].
  - destruct s0 as [|c s0]; simpl.
    + split; [discriminate|]. intros [H Hne]. injection H as <-. contradiction.
    + split.
      * intros H. injection H as <-. split; [reflexivity|discriminate].
      * intros [H _]. exact H.
  - split; [discriminate|]. intros [H _]. discriminate.
Qed.

Lemma load_cases host log :
  let log1 := (log ++ [EvReadFile (configPath host)])%list in
  (exists e, homedir host = Throws e
             /\ loadMiniMaxSession host log = (Throws e, log))
  \/ (exists s, credential_holds host s
                /\ loadMiniMaxSession host log = (Returns (Some s), log1))
  \/ ((forall s, ~ credential_holds host s)
      /\ loadMiniMaxSession host log = (Returns None, log1)).
Proof.
  intros log1. subst log1.
  destruct (homedir host) as [dir|e0] eqn:Hh.
  - right.
    destruct (readFile host (configPath host)) as [content|e] eqn:Hc.
    + destruct (JSON_parse host content) as [config|e] eqn:Hp.
      * rewrite (loadMiniMaxSession_parsed host log dir content config Hh Hc Hp).
        destruct (session_or_null config) as [s|] eqn:Hs.
        -- left. exists s. split; [|reflexivity].
           apply session_or_null_some in Hs. destruct Hs as [Hs Hne].
           split; [eauto|]. exists content, config. auto.
        -- right. split; [|reflexivity].
           intros s [_ [content' [config' [Hc' [Hp' [Hs' Hne]]]]]].
           rewrite Hc in Hc'. injection Hc' as <-.
           rewrite Hp in Hp'. injection Hp' as <-.
           assert (H : session_or_null config = Some s).
           { apply session_or_null_some. auto. }
           congruence.
      * right. split.
        -- intros s [_ [content' [config' [Hc' [Hp' _]]]]].
           rewrite Hc in Hc'. injection Hc' as <-. congruence.
        -- apply loadMiniMaxSession_unreadable. split; [eauto|]. right. eauto.
    + right. split.
      * intros s [_ [content' [config' [Hc' _]]]]. congruence.
      * apply loadMiniMaxSession_unreadable. split; [eauto|]. left. eauto.
  - left. exists e0. split; [reflexivity|].
    apply loadMiniMaxSession_homeless. exact Hh.
Qed.

Lemma healthy_fetch t host s env log :
  healthy host s env ->
  fetchMiniMaxUsage t host s log
  = (Returns env, (log ++ [EvFetch (quota_request s)])%list).
Proof.
  intros [_ [response [Hf [Hok [Hj Hz]]]]].
  rewrite fetchMiniMaxUsage_run. cbv zeta. rewrite Hf, Hok, Hj.
  apply Qeq_bool_iff in Hz. rewrite Hz. reflexivity.
Qed.

Lemma fetch_returns_inv t host s log env log' :
  fetchMiniMaxUsage t host s log = (Returns env, log') ->
  exists response,
    fetchWithTimeout host (quota_request s) = Returns response
    /\ ok response = true
    /\ json response = Returns env
    /\ (status_code (base_resp env) == 0)%Q
    /\ log' = (log ++ [EvFetch (quota_request s)])%list.
Proof.
  rewrite fetchMiniMaxUsage_run. cbv zeta.
  destruct (fetchWithTimeout host (quota_request s)) as [response|e];
    [|discriminate].
  destruct (ok response) eqn:Hok.
  - destruct (json response) as [env0|e] eqn:Hj; [|discriminate].
    destruct (Qeq_bool (status_code (base_resp env0)) 0) eqn:Hz; [|discriminate].
    intros H. injection H as <- <-.
    exists response. apply Qeq_bool_iff in Hz. auto.
  - destruct (text response); discriminate.
Qed.

(** X10: [loadMiniMaxSession] throws exactly when [homedir()] throws, with
    that exception and before any file is read.  Once [homedir()] has
    returned it never throws, reads the credential file once and nothing
    else, and returns a session exactly when the file can be read, parses
    and holds a non-empty [session]: a returned session is never the empty
    string. *)
Theorem session_loaded_iff host log :
  let log1 := (log ++ [EvReadFile (configPath host)])%list in
  (forall e log',
      loadMiniMaxSession host log = (Throws e, log')
      <-> homedir host = Throws e /\ log' = log)
  /\ (forall dir, homedir host = Returns dir ->
                  exists loaded,
                    loadMiniMaxSession host log = (Returns loaded, log1))
  /\ (forall s log',
         loadMiniMaxSession host log = (Returns (Some s), log')
         <-> credential_holds host s /\ log' = log1)
  /\ (forall log', loadMiniMaxSession host log <> (Returns (Some EmptyString), log')).
Proof.
  intros log1.
  assert (Hiff : forall s log',
             loadMiniMaxSession host log = (Returns (Some s), log')
             <-> credential_holds host s /\ log' = log1).
  { intros s log'. split.
    - intros H.
      destruct (load_cases host log)
        as [[e0 [_ Hl]]|[[s0 [Hcred Hl]]|[_ Hl]]];
        rewrite Hl in H; try discriminate.
      injection H as <- <-. auto.
    - intros [Hcred ->]. apply credential_holds_load. exact Hcred. }
  split; [|split; [|split; [exact Hiff|]]].
  - intros e log'. split.
    + intros H.
      destruct (load_cases host log)
        as [[e0 [Hh Hl]]|[[s0 [_ Hl]]|[_ Hl]]];
        rewrite Hl in H; try discriminate.
      injection H as <- <-. auto.
    + intros [Hh ->]. apply loadMiniMaxSession_homeless. exact Hh.
  - intros dir Hh. apply (loadMiniMaxSession_returns host log dir Hh).
  - intros log' H. apply Hiff in H. destruct H as [Hcred _].
    apply (credential_holds_nonempty host EmptyString Hcred). reflexivity.
Qed.

Lemma fetchMiniMaxUsage_log t host s log :
  exists result,
    fetchMiniMaxUsage t host s log
    = (result, (log ++ [EvFetch (quota_request s)])%list).
Proof.
  rewrite fetchMiniMaxUsage_run. cbv zeta.
  destruct (fetchWithTimeout host (quota_request s)) as [response|e]; [|eauto].
  destruct (ok response).
  - destruct (json response) as [env|e]; [|eauto].
    destruct (Qeq_bool (status_code (base_resp env)) 0); eauto.
  - destruct (text response); eauto.
Qed.

(** X11: [fetchMiniMaxUsage] makes a single attempt: whatever the outcome,
    it adds exactly one network call to the log, a GET of the quota URL with
    the session in the [HERTZ-SESSION] cookie. *)
Theorem fetch_single_attempt t host s log :
  (exists result,
      fetchMiniMaxUsage t host s log
      = (result, (log ++ [EvFetch (quota_request s)])%list))
  /\ fetch_calls (snd (fetchMiniMaxUsage t host s log)) = S (fetch_calls log)
  /\ req_url (quota_request s) = MINIMAX_QUOTA_URL
  /\ req_method (quota_request s) = "GET"
  /\ In ("Cookie", ("HERTZ-SESSION=" ++ s)%string) (req_headers (quota_request s)).
Proof.
  pose proof (fetchMiniMaxUsage_log t host s log) as H.
  split; [exact H|].
  destruct H as [result H]. rewrite H. simpl snd.
  split; [apply fetch_calls_fetch|].
  split; [reflexivity|split; [reflexivity|]].
  simpl. auto.
Qed.

(** X12: an envelope that [fetchMiniMaxUsage] returns always comes from a
    response with a success status and has [base_resp.status_code] 0: an
    envelope that reports an error never reaches the formatter. *)
Theorem fetch_returns_only_status_zero t host s log env log' :
  fetchMiniMaxUsage t host s log = (Returns env, log') ->
  (status_code (base_resp env) == 0)%Q
  /\ exists response,
       fetchWithTimeout host (quota_request s) = Returns response
       /\ ok response = true
       /\ json response = Returns env.
Proof.
  intros H. apply fetch_returns_inv in H.
  destruct H as [response [Hf [Hok [Hj [Hz _]]]]].
  split; [exact Hz|]. exists response. auto.
Qed.

Lemma fetch_returns_only_status_zero_witness :
  (status_code (base_resp (Sample.envelope (Some Sample.busy))) == 0)%Q
  /\ exists response,
       fetchWithTimeout Sample.host_busy (quota_request "MTc3MTA2NDA0Nnx")
       = Returns response
       /\ ok response = true
       /\ json response = Returns (Sample.envelope (Some Sample.busy)).
Proof.
  apply (fetch_returns_only_status_zero Sample.t Sample.host_busy
           "MTc3MTA2NDA0Nnx" [] (Sample.envelope (Some Sample.busy))
           [EvFetch (quota_request "MTc3MTA2NDA0Nnx")]).
  reflexivity.
Defined.

Lemma credential_unique host s s' :
  credential_holds host s -> credential_holds host s' -> s = s'.
Proof.
  intros [_ [c [cfg [Hc [Hp [Hs _]]]]]] [_ [c' [cfg' [Hc' [Hp' [Hs' _]]]]]].
  rewrite Hc in Hc'. injection Hc' as <-.
  rewrite Hp in Hp'. injection Hp' as <-.
  congruence.
Qed.

Lemma credential_holds_home host s e :
  credential_holds host s -> homedir host <> Throws e.
Proof.
  intros [[dir Hh] _] H. congruence.
Qed.

Lemma query_cases t U host (MiniMaxAuthData : Type)
  (auth : option MiniMaxAuthData) log :
  let log1 := (log ++ [EvReadFile (configPath host)])%list in
  (exists e,
      homedir host = Throws e
      /\ queryMiniMaxUsage t U host MiniMaxAuthData auth log = (Throws e, log))
  \/ (exists s,
         credential_holds host s
         /\ queryMiniMaxUsage t U host MiniMaxAuthData auth log
            = match fetchMiniMaxUsage t host s log1 with
              | (Returns usage, log2) =>
                  (Returns (Some (succeeded
                                    (formatMiniMaxUsage t U (Number_toString host)
                                       (Date_now host) usage s))), log2)
              | (Throws err, log2) =>
                  (Returns (Some (failure (error_text err))), log2)
              end)
  \/ ((forall s, ~ credential_holds host s)
      /\ queryMiniMaxUsage t U host MiniMaxAuthData auth log
         = (Returns (Some (failure (I18n.minimaxConfigRequired t))), log1)).
Proof.
  intros log1.
  destruct (load_cases host log) as [[e [Hh _]]|[[s [Hcred Hl]]|[Hno Hl]]].
  - left. exists e. split; [exact Hh|].
    apply (query_homeless t U host MiniMaxAuthData auth log e Hh).
  - right. left. exists s. split; [exact Hcred|].
    apply (query_with_session t U host MiniMaxAuthData auth log _ s Hl).
    apply (credential_holds_nonempty host s Hcred).
  - right. right. split; [exact Hno|].
    apply (query_without_session t U host MiniMaxAuthData auth log _ None Hl).
    reflexivity.
Qed.

Lemma report_of_no_quota_data U now resp session :
  no_quota_data resp ->
  report U now resp session
  = [LHeader session (planLabel (data resp)); LBlank; LNoQuotaData].
Proof.
  unfold no_quota_data. intros H.
  destruct (data resp) as [d|] eqn:Hd.
  - destruct H as [Ht Hm].
    apply (report_lacking U now resp session d Hd).
    unfold lacks_key_fields. rewrite Ht, Hm. reflexivity.
  - apply (report_no_data U now resp session Hd).
Qed.

(** X13: a query succeeds exactly when the credential file holds a non-empty
    session and the provider answers it with a success status and an
    envelope whose [status_code] is 0; the [output] is then the formatted
    text of that envelope for that session. *)
Theorem query_success_iff t U host (MiniMaxAuthData : Type)
  (auth : option MiniMaxAuthData) log r log' :
  queryMiniMaxUsage t U host MiniMaxAuthData auth log = (Returns (Some r), log') ->
  (success r = true <-> exists s env, healthy host s env)
  /\ (forall s env,
         healthy host s env ->
         r = succeeded (formatMiniMaxUsage t U (Number_toString host)
                          (Date_now host) env s)).
Proof.
  intros Hrun.
  destruct (query_cases t U host MiniMaxAuthData auth log)
    as [[e0 [_ Hq]]|[[s [Hcred Hq]]|[Hno Hq]]]; rewrite Hq in Hrun;
    [discriminate| |].
  - destruct (fetchMiniMaxUsage t host s _) as [[usage|err] log2] eqn:Hf;
      injection Hrun as <- _.
    + pose proof (fetch_returns_inv _ _ _ _ _ _ Hf)
        as [response [Hr [Hok [Hj [Hz _]]]]].
      assert (Hh : healthy host s usage).
      { split; [exact Hcred|]. exists response. auto. }
      split.
      * split; [intros _; eauto | reflexivity].
      * intros s' env' Hh'.
        assert (s' = s) by (destruct Hh' as [Hc' _];
                            apply (credential_unique host s' s Hc' Hcred)).
        subst s'.
        rewrite (healthy_fetch t host s env' _ Hh') in Hf.
        injection Hf as -> _. reflexivity.
    + assert (Hnot : forall s' env', ~ healthy host s' env').
      { intros s' env' Hh'.
        assert (s' = s) by (destruct Hh' as [Hc' _];
                            apply (credential_unique host s' s Hc' Hcred)).
        subst s'.
        rewrite (healthy_fetch t host s env' _ Hh') in Hf. discriminate. }
      split.
      * split; [discriminate|]. intros [s' [env' Hh']].
        exfalso. exact (Hnot s' env' Hh').
      * intros s' env' Hh'. exfalso. exact (Hnot s' env' Hh').
  - injection Hrun as <- _.
    assert (Hnot : forall s' env', ~ healthy host s' env').
    { intros s' env' [Hc' _]. exact (Hno s' Hc'). }
    split.
    + split; [discriminate|]. intros [s' [env' Hh']].
      exfalso. exact (Hnot s' env' Hh').
    + intros s' env' Hh'. exfalso. exact (Hnot s' env' Hh').
Qed.

Lemma query_success_iff_witness :
  (exists r log',
      queryMiniMaxUsage Sample.t Sample.U Sample.host_busy unit None []
      = (Returns (Some r), log')
      /\ (success r = true
          <-> exists s env, healthy Sample.host_busy s env))
  /\ healthy Sample.host_busy "MTc3MTA2NDA0Nnx" (Sample.envelope (Some Sample.busy)).
Proof.
  split.
  - assert (Hrun : exists r log',
               queryMiniMaxUsage Sample.t Sample.U Sample.host_busy unit None []
               = (Returns (Some r), log')).
    { vm_compute. eexists. eexists. reflexivity. }
    destruct Hrun as [r [log' Hrun]].
    exists r, log'. split; [exact Hrun|].
    apply (query_success_iff Sample.t Sample.U Sample.host_busy unit None []
             r log' Hrun).
  - split.
    + split; [exists "/home/dev"; reflexivity|].
    exists "{session:MTc3MTA2NDA0Nnx}", {| session := Some "MTc3MTA2NDA0Nnx" |}.
      repeat split; discriminate.
    + eexists. repeat split; reflexivity.
Defined.



(** X15: when the envelope reports a non-zero [status_code] and its
    [status_msg] is absent or empty, the query fails with
    [t.minimaxApiError(status_code, "Unknown error")], after one file read
    and one network call. *)
Theorem unknown_error_fallback t U host (MiniMaxAuthData : Type)
  (auth : option MiniMaxAuthData) log s response env :
  credential_holds host s ->
  fetchWithTimeout host (quota_request s) = Returns response ->
  ok response = true ->
  json response = Returns env ->
  ~ (status_code (base_resp env) == 0)%Q ->
  status_msg (base_resp env) = None
  \/ status_msg (base_resp env) = Some EmptyString ->
  queryMiniMaxUsage t U host MiniMaxAuthData auth log
  = (Returns (Some (failure (I18n.minimaxApiError t (status_code (base_resp env))
                               "Unknown error"))),
     (log ++ [EvReadFile (configPath host); EvFetch (quota_request s)])%list).
Proof.
  intros Hcred Hf Hok Hj Hnz Hmsg.
  destruct (query_cases t U host MiniMaxAuthData auth log)
    as [[e0 [Hh0 _]]|[[s' [Hcred' Hq]]|[Hno _]]];
    [exfalso; exact (credential_holds_home host s e0 Hcred Hh0)
    | |exfalso; exact (Hno s Hcred)].
  assert (s' = s) by apply (credential_unique host s' s Hcred' Hcred).
  subst s'. rewrite Hq, fetchMiniMaxUsage_run. cbv zeta.
  rewrite Hf, Hok, Hj.
  destruct (Qeq_bool (status_code (base_resp env)) 0) eqn:Hz.
  - apply Qeq_bool_iff in Hz. contradiction.
  - rewrite <- app_assoc. simpl.
    destruct Hmsg as [-> | ->]; reflexivity.
Qed.

Lemma unknown_error_fallback_witness :
  queryMiniMaxUsage Sample.t Sample.U Sample.host_no_message unit None []
  = (Returns (Some (failure "MiniMax API request failed: Unknown error")),
     [EvReadFile "/home/dev/.config/opencode/minimax-session.json";
      EvFetch (quota_request "MTc3MTA2NDA0Nnx")]).
Proof.
  assert (Hcred : credential_holds Sample.host_no_message "MTc3MTA2NDA0Nnx").
  { split; [exists "/home/dev"; reflexivity|].
    exists "{session:MTc3MTA2NDA0Nnx}", {| session := Some "MTc3MTA2NDA0Nnx" |}.
    repeat split; discriminate. }
  apply (unknown_error_fallback Sample.t Sample.U Sample.host_no_message unit
           None [] "MTc3MTA2NDA0Nnx" _ _ Hcred eq_refl eq_refl eq_refl).
  - intros H. vm_compute in H. discriminate.
  - left. reflexivity.
Defined.

(** X16: an answer without quota data is not a failure: when the provider
    answers the stored session with status 0 and an envelope that has no
    [data], or whose [data] lacks both [total_prompts] and
    [remaining_prompts], the query succeeds and its [output] is the account
    line, an empty line and the "no quota data" line. *)
Theorem no_quota_data_is_success t U host (MiniMaxAuthData : Type)
  (auth : option MiniMaxAuthData) log s env :
  healthy host s env ->
  no_quota_data env ->
  queryMiniMaxUsage t U host MiniMaxAuthData auth log
  = (Returns (Some (succeeded
                      (join_lines
                         [render t U (Number_toString host)
                            (LHeader s (planLabel (data env)));
                          EmptyString;
                          I18n.noQuotaData t]))),
     (log ++ [EvReadFile (configPath host); EvFetch (quota_request s)])%list).
Proof.
  intros Hh Hno.
  destruct (query_cases t U host MiniMaxAuthData auth log)
    as [[e0 [Hh0 _]]|[[s' [Hcred' Hq]]|[Hnone _]]].
  - destruct Hh as [Hc _]. exfalso.
    exact (credential_holds_home host s e0 Hc Hh0).
  - assert (s' = s) by (destruct Hh as [Hc _];
                        apply (credential_unique host s' s Hcred' Hc)).
    subst s'. rewrite Hq, (healthy_fetch t host s env _ Hh).
    unfold formatMiniMaxUsage.
    rewrite (report_of_no_quota_data U (Date_now host) env s Hno).
    rewrite <- app_assoc. reflexivity.
  - destruct Hh as [Hc _]. exfalso. exact (Hnone s Hc).
Qed.

Lemma no_quota_data_is_success_witness :
  queryMiniMaxUsage Sample.t Sample.U Sample.host_unmetered unit None []
  = (Returns (Some (succeeded
                      (join_lines ["Account:        **** (Coding Plan)";
                                   EmptyString;
                                   "No quota data available"]))),
     [EvReadFile "/home/dev/.config/opencode/minimax-session.json";
      EvFetch (quota_request "MTc3MTA2NDA0Nnx")]).
Proof.
  apply (no_quota_data_is_success Sample.t Sample.U Sample.host_unmetered unit
           None [] "MTc3MTA2NDA0Nnx" (Sample.envelope None)).
  - split.
    + split; [exists "/home/dev"; reflexivity|].
    exists "{session:MTc3MTA2NDA0Nnx}", {| session := Some "MTc3MTA2NDA0Nnx" |}.
      repeat split; discriminate.
    + eexists. repeat split; reflexivity.
  - exact I.
Defined.

(** X17: once [homedir()] has returned, [queryMiniMaxUsage] always returns a
    result object, whatever the credential file, the transport and the
    parser do (exceptions included): it never throws and never returns
    [null]. *)
Theorem query_returns_when_home_resolves t U host (MiniMaxAuthData : Type)
  (auth : option MiniMaxAuthData) log dir :
  homedir host = Returns dir ->
  exists r log',
    queryMiniMaxUsage t U host MiniMaxAuthData auth log = (Returns (Some r), log').
Proof.
  intros Hh.
  destruct (loadMiniMaxSession_returns host log dir Hh) as [s Hload].
  apply (query_returns_after_load t U host MiniMaxAuthData auth log s _ Hload).
Qed.

Lemma query_returns_when_home_resolves_witness :
  (exists r log',
      queryMiniMaxUsage Sample.t Sample.U Sample.host_unparsable unit None []
      = (Returns (Some r), log'))
  /\ (exists r log',
         queryMiniMaxUsage Sample.t Sample.U Sample.host_missing unit None []
         = (Returns (Some r), log')).
Proof.
  split.
  - apply (query_returns_when_home_resolves Sample.t Sample.U
             Sample.host_unparsable unit None [] "/home/dev").
    reflexivity.
  - apply (query_returns_when_home_resolves Sample.t Sample.U
             Sample.host_missing unit None [] "/home/dev").
    reflexivity.
Defined.
